(** * pyucallerapi: the uCaller API client of [api.py]

    A shallow embedding of the classes [BaseUCaller] and [APIUCaller] and a
    verification of the properties stated about them.

    Conventions of the embedding.
    - A Python [str] is a [string]; one [ascii] is one character (a code
      point below 256), so [String.length] is Python's [len].
    - A Python instance is its class name together with its attribute
      dictionary, a [gmap string value].  A private name [__x] written inside
      [class C] is stored and looked up under the mangled key [_C__x], as
      Python does.
    - A call either returns or raises ([outcome]); the operations that talk
      to the session also yield the trace of events they caused. *)

From Stdlib Require Import ZArith List String Ascii Bool Lia DecimalString.
From stdpp Require Import base option gmap strings.

Import ListNotations.
Set Warnings "-register-all".
Local Open Scope string_scope.
Local Open Scope Z_scope.

(** ** Exceptions and outcomes *)

(** The text of the messages built by [api.py] (Russian sentences in the
    source); only their identity matters here. *)
Inductive message :=
| MsgKeyTooLong (len_key : nat)   (* SetKey: len(key) > 32 *)
| MsgSameServiceId                (* SetServiceId *)
| MsgNoSession                    (* SetSession *)
| MsgPhoneFormat                  (* init_call, line 174 *)
| MsgCodeLength                   (* init_call, line 180 *)
| MsgClientLength                 (* init_call, line 186 *)
| MsgUniqueLength                 (* init_call, line 192 *)
| MsgInitCallFailed               (* init_call, line 209 *)
| MsgInitRepeatFailed             (* init_repeat, line 240 *)
| MsgGetInfoFailed                (* get_info, line 263 *)
| MsgGetBalanceFailed.            (* get_balance line 289, get_service line 315 *)

(** Builtin exceptions, the [requests.exceptions] hierarchy (every class of
    it derives from [RequestException]), and the five classes imported from
    the module [exception], with their positional arguments. *)
Inductive exn :=
| AttributeError (msg : string)
| TypeError (msg : string)
| IndexError (msg : string)
| OtherError (cls : string) (msg : string)
| RequestException (cls : string) (msg : string)
| SetKey (qualname method : string) (msg : message) (code : option Z)
| SetServiceId (qualname method : string) (msg : message)
| SetSession (qualname method : string) (msg : message)
| ParamSetException (qualname method : string) (msg : message)
| GetException (qualname method : string) (msg : message) (err : exn).

(** [except requests.exceptions.RequestException] *)
Definition is_RequestException (e : exn) : bool :=
  match e with
  | RequestException _ _ => true
  | _ => false
  end.

Inductive outcome (A : Type) :=
| Return (a : A)
| Raise (e : exn).
Arguments Return {A} a.
Arguments Raise {A} e.

Definition obind {A B} (m : outcome A) (f : A -> outcome B) : outcome B :=
  match m with
  | Return a => f a
  | Raise e => Raise e
  end.

(** ** Strings *)

Definition char_eqb (c : ascii) (d : string) : bool :=
  match d with
  | String d0 EmptyString => Ascii.eqb c d0
  | _ => false
  end.

(** [s[i]] for a non-negative index *)
Definition index (s : string) (i : nat) : outcome ascii :=
  match String.get i s with
  | Some c => Return c
  | None => Raise (IndexError "string index out of range")
  end.

(** [s[1:]] *)
Definition slice_from_1 (s : string) : string :=
  match s with
  | EmptyString => EmptyString
  | String _ rest => rest
  end.

(** ** The phone pattern

    A backtracking matcher for the fragment of Python's [re] syntax that
    [__REGEX_PHONE] uses. *)

Inductive regex :=
| Bol                          (* ^ *)
| Eol                          (* $ *)
| Eps
| Lit (c : ascii)
| Class (p : ascii -> bool)    (* [...] *)
| Cat (r1 r2 : regex)
| Alt (r1 r2 : regex)          (* r1|r2 *)
| Opt (r : regex).             (* r? *)

(** r{n} *)
Fixpoint times (n : nat) (r : regex) : regex :=
  match n with
  | O => Eps
  | S n' => Cat r (times n' r)
  end.

(** [accepts r pos s k]: [r] matches a prefix of [s], which starts at offset
    [pos] of the subject, and [k] accepts what follows. *)
Fixpoint accepts (r : regex) (pos : nat) (s : string)
    (k : nat -> string -> bool) : bool :=
  match r with
  | Bol => Nat.eqb pos 0 && k pos s
  | Eol =>
      match s with
      | EmptyString => k pos s
      | String c EmptyString => Ascii.eqb c "010" && k pos s
      | _ => false
      end
  | Eps => k pos s
  | Lit c =>
      match s with
      | String d s' => Ascii.eqb c d && k (S pos) s'
      | EmptyString => false
      end
  | Class p =>
      match s with
      | String d s' => p d && k (S pos) s'
      | EmptyString => false
      end
  | Cat r1 r2 => accepts r1 pos s (fun pos' s' => accepts r2 pos' s' k)
  | Alt r1 r2 => accepts r1 pos s k || accepts r2 pos s k
  | Opt r1 => accepts r1 pos s k || k pos s
  end.

(** [re.match(pattern, s)] is truthy *)
Definition re_match (pattern : regex) (s : string) : bool :=
  accepts pattern 0 s (fun _ _ => true).

Definition in_range (lo hi : N) (c : ascii) : bool :=
  (N.leb lo (N_of_ascii c) && N.leb (N_of_ascii c) hi)%N.

(** [0-9] *)
Definition digit : ascii -> bool := in_range 48 57.

(** [\s] on a [str] pattern: the Unicode white space below 256 *)
Definition space (c : ascii) : bool :=
  in_range 9 13 c || in_range 28 32 c
  || N.eqb (N_of_ascii c) 133 || N.eqb (N_of_ascii c) 160.

(** [[\s\-]] *)
Definition sep (c : ascii) : bool := space c || Ascii.eqb c "-".

(** [[489]] *)
Definition d489 (c : ascii) : bool :=
  Ascii.eqb c "4" || Ascii.eqb c "8" || Ascii.eqb c "9".

Fixpoint cat_all (rs : list regex) : regex :=
  match rs with
  | [] => Eps
  | r :: rs' => Cat r (cat_all rs')
  end.

(** [__REGEX_PHONE], line 8 *)
Definition REGEX_PHONE : regex :=
  cat_all
    [ Bol;
      Opt (Alt (Cat (Lit "+") (Lit "7")) (Alt (Lit "7") (Lit "8")));
      Opt (Class sep);
      Opt (Lit "(");
      Class d489; times 2 (Class digit);
      Opt (Lit ")");
      Opt (Class sep);
      times 3 (Class digit);
      Opt (Class sep);
      times 2 (Class digit);
      Opt (Class sep);
      times 2 (Class digit);
      Eol ].

(** ** BaseUCaller: the class methods *)

(** [check_phone], lines 133-137 *)
Definition check_phone (phone : string) : bool :=
  if re_match REGEX_PHONE phone then true else false.

(** [change_phone], lines 139-149 *)
Definition change_phone (phone : string) : outcome string :=
  obind (index phone 0) (fun c0 =>
  obind (if char_eqb c0 "+"
         then obind (index phone 1) (fun c1 => Return (char_eqb c1 "7"))
         else Return false) (fun plus7 =>
  if plus7 then Return (slice_from_1 phone)
  else if char_eqb c0 "7" then Return phone
  else if char_eqb c0 "8" then Return ("7" +:+ slice_from_1 phone)
  else Return ("7" +:+ slice_from_1 phone))).

(** ** Values, sessions and instances *)

(** What [Response.json()] can return. *)
Inductive json :=
| JNull
| JBool (b : bool)
| JInt (z : Z)
| JFloat (literal : string)
| JStr (s : string)
| JList (l : list json)
| JDict (d : list (string * json)).

(** [type(j).__name__] *)
Definition type_name (j : json) : string :=
  match j with
  | JNull => "NoneType"
  | JBool _ => "bool"
  | JInt _ => "int"
  | JFloat _ => "float"
  | JStr _ => "str"
  | JList _ => "list"
  | JDict _ => "dict"
  end.

(** lookup of the key [k] in a parsed mapping *)
Fixpoint dict_get (d : list (string * json)) (k : string) : option json :=
  match d with
  | [] => None
  | (k', v) :: d' => if String.eqb k k' then Some v else dict_get d' k
  end.

(** [j.get(k)] on what [Response.json()] returned *)
Definition field (j : json) (k : string) : option json :=
  match j with
  | JDict d => dict_get d k
  | _ => None
  end.

(** A [requests.Response]: the client only calls [.json()] on it. *)
Record Response := { json_body : outcome json }.

(** A [requests.Session] (or a stand-in for it): its headers and what
    [.get(url, timeout=...)] does. *)
Record Session := {
  headers : list (string * string);
  get : string -> Z -> outcome Response
}.

(** The values held by attributes and passed as arguments. *)
Inductive value :=
| VNone
| VInt (z : Z)
| VStr (s : string)
| VSession (s : Session).

Definition value_type (v : value) : string :=
  match v with
  | VNone => "NoneType"
  | VInt _ => "int"
  | VStr _ => "str"
  | VSession _ => "Session"
  end.

(** [str(v)], as an f-string field formats it *)
Definition format (v : value) : string :=
  match v with
  | VNone => "None"
  | VInt z => NilZero.string_of_int (Z.to_int z)
  | VStr s => s
  | VSession _ => "<requests.sessions.Session object>"
  end.

(** [len(v)] *)
Definition len (v : value) : outcome nat :=
  match v with
  | VStr s => Return (String.length s)
  | _ => Raise (TypeError ("object of type '" +:+ value_type v +:+ "' has no len()"))
  end.

(** [v.__name__]: no integer, string, [None] or session instance has one. *)
Definition dunder_name (v : value) : outcome string :=
  Raise (AttributeError
           ("'" +:+ value_type v +:+ "' object has no attribute '__name__'")).

(** [a == b] where [a] is an integer *)
Definition int_eq (a : Z) (b : value) : bool :=
  match b with
  | VInt z => Z.eqb a z
  | _ => false
  end.

Record Instance := {
  class_name : string;            (* self.__class__.__qualname__ *)
  dict : gmap string value        (* self.__dict__ *)
}.

(** A fresh object of class [cls], before [__init__] runs. *)
Definition new (cls : string) : Instance :=
  {| class_name := cls; dict := ∅ |}.

Definition getattr (self : Instance) (name : string) : outcome value :=
  match dict self !! name with
  | Some v => Return v
  | None =>
      Raise (AttributeError
               ("'" +:+ class_name self +:+ "' object has no attribute '"
                +:+ name +:+ "'"))
  end.

Definition setattr (self : Instance) (name : string) (v : value) : Instance :=
  {| class_name := class_name self; dict := <[name := v]> (dict self) |}.

Declare Scope outcome_scope.
Delimit Scope outcome_scope with outcome.
Notation "'let?' x ':=' m 'in' k" := (obind m (fun x => k))
  (at level 10, x name, m at level 100, k at level 200) : outcome_scope.
Local Open Scope outcome_scope.

(** ** BaseUCaller: construction, properties and setters *)

Definition default_service_id : Z := 296227.
Definition default_key : string := "SezKuYbfSaKT8j211ESjTgnlLcyNf4K5".

(** [service_id] getter, lines 70-72 *)
Definition service_id (self : Instance) : outcome value :=
  getattr self "_BaseUCaller__service_id".

(** [key] getter, lines 84-91 *)
Definition key (self : Instance) : outcome value :=
  getattr self "_BaseUCaller__key".

(** [session] getter, lines 109-116 *)
Definition session (self : Instance) : outcome value :=
  getattr self "_BaseUCaller__session".

Definition json_headers : list (string * string) :=
  [("ContentType", "application/json");
   ("Accept", "application/json");
   ("Content-Encoding", "utf-8")].

Section Construction.

(** The object that [requests.Session()] returns. *)
Variable requests_Session : Session.

(** [__init__], lines 12-46 *)
Definition init (self : Instance) (service_id_ : Z) (key_ : string)
    (session_ : option Session) : outcome Instance :=
  let self := setattr self "_BaseUCaller__service_id" (VInt service_id_) in
  let? _ :=
    if (32 <? String.length key_)%nat then
      let? sid := service_id self in
      let? name := dunder_name sid in
      Raise (SetKey (class_name self) name
               (MsgKeyTooLong (String.length key_)) (Some 100))
    else Return tt in
  let self := setattr self "_BaseUCaller__key" (VStr key_) in
  let self :=
    match session_ with
    | Some s => setattr self "_BaseUCaller__session" (VSession s)
    | None =>
        setattr self "_BaseUCaller__session"
          (VSession {| headers := json_headers;
                       get := get requests_Session |})
    end in
  let self :=
    setattr self "_BaseUCaller__base_url" (VStr "https://api.ucaller.ru/") in
  let self := setattr self "_BaseUCaller__version_api" (VStr "v1.0") in
  Return self.

End Construction.

(** [service_id] setter, lines 74-82 *)
Definition set_service_id (self : Instance) (service_id_ : Z)
    : outcome Instance :=
  let? current := getattr self "_BaseUCaller__service_id" in
  if int_eq service_id_ current then
    let? sid := service_id self in
    let? name := dunder_name sid in
    Raise (SetServiceId (class_name self) name MsgSameServiceId)
  else Return (setattr self "_BaseUCaller__service_id" (VInt service_id_)).

(** [key] setter, lines 93-107 *)
Definition set_key (self : Instance) (key_ : string) : outcome Instance :=
  if (32 <? String.length key_)%nat then
    let? sid := service_id self in
    let? name := dunder_name sid in
    Raise (SetKey (class_name self) name
             (MsgKeyTooLong (String.length key_)) None)
  else Return (setattr self "_BaseUCaller__key" (VStr key_)).

(** [session] setter, lines 118-131 *)
Definition set_session (self : Instance) (session_ : option Session)
    : outcome Instance :=
  match session_ with
  | None =>
      let? s := session self in
      let? name := dunder_name s in
      Raise (SetSession (class_name self) name MsgNoSession)
  | Some s => Return (setattr self "_BaseUCaller__session" (VSession s))
  end.

(** ** Effects of the operations

    What a caller, or a test harness around it, can observe of a call besides
    its outcome: the requests handed to the session, the records handed to
    [logging], and the warnings issued through [warnings.warn]. *)
Inductive event :=
| HttpGet (url : string) (timeout : Z)
| LogRecord (level : string) (text : string)
| Warning (category : string) (text : string).

Definition M (A : Type) : Type := outcome A * list event.

Definition ret {A} (a : A) : M A := (Return a, []).
Definition raise {A} (e : exn) : M A := (Raise e, []).
Definition lift {A} (o : outcome A) : M A := (o, []).

Definition bind {A B} (m : M A) (f : A -> M B) : M B :=
  match m with
  | (Return a, t) => let (r, t') := f a in (r, (t ++ t')%list)
  | (Raise e, t) => (Raise e, t)
  end.

(** [try: body except requests.exceptions.RequestException as err: handler] *)
Definition try_except_RequestException {A} (body : M A) (handler : exn -> M A)
    : M A :=
  match body with
  | (Raise err, t) =>
      if is_RequestException err
      then let (r, t') := handler err in (r, (t ++ t')%list)
      else (Raise err, t)
  | (Return a, t) => (Return a, t)
  end.

Notation "'let*' x ':=' m 'in' k" := (bind m (fun x => k))
  (at level 10, x name, m at level 100, k at level 200) : outcome_scope.

(** [s.get]: the bound method, when [s] is a session *)
Definition dot_get (s : value) : outcome (string -> Z -> M Response) :=
  match s with
  | VSession s => Return (fun url timeout => (get s url timeout, [HttpGet url timeout]))
  | _ =>
      Raise (AttributeError
               ("'" +:+ value_type s +:+ "' object has no attribute 'get'"))
  end.

(** [f'&name={v}' if v is not None else ''] *)
Definition optional_param (name : string) (v : option string) : string :=
  match v with
  | Some x => "&" +:+ name +:+ "=" +:+ x
  | None => ""
  end.

(** ** APIUCaller: the operations

    In the body of [class APIUCaller] the names [self.__base_url] and
    [self.__version_api] denote the attributes [_APIUCaller__base_url] and
    [_APIUCaller__version_api]. *)

(** The common head of every URL:
    [{self.__base_url}{self.__version_api}/<endpoint>?service_id={self.service_id}&key={self.key}] *)
Definition url_head (self : Instance) (endpoint : string) : outcome string :=
  let? base_url := getattr self "_APIUCaller__base_url" in
  let? version_api := getattr self "_APIUCaller__version_api" in
  let? sid := service_id self in
  let? k := key self in
  Return (format base_url +:+ format version_api +:+ "/" +:+ endpoint
          +:+ "?service_id=" +:+ format sid +:+ "&key=" +:+ format k).

(** [init_call], lines 170-193: the checks on the arguments *)
Definition init_call_checks (self : Instance) (phone : string) (code : value)
    (client unique : option string) : outcome unit :=
  let? _ :=
    if negb (check_phone phone)
    then Raise (ParamSetException (class_name self) "init_repeat" MsgPhoneFormat)
    else Return tt in
  let? n := len code in
  let? _ :=
    if (4 <? n)%nat || (n <? 4)%nat
    then Raise (ParamSetException (class_name self) "init_repeat" MsgCodeLength)
    else Return tt in
  let? _ :=
    match client with
    | Some c =>
        if (64 <? String.length c)%nat
        then Raise (ParamSetException (class_name self) "init_repeat" MsgClientLength)
        else Return tt
    | None => Return tt
    end in
  match unique with
  | Some u =>
      if (64 <? String.length u)%nat
      then Raise (ParamSetException (class_name self) "init_repeat" MsgUniqueLength)
      else Return tt
  | None => Return tt
  end.

(** [init_call], lines 154-210 *)
Definition init_call (self : Instance) (phone : string) (code : value)
    (client unique : option string) (timeout : Z) : M json :=
  let* _ := lift (init_call_checks self phone code client unique) in
  let* phone := lift (change_phone phone) in
  try_except_RequestException
    (let* s := lift (session self) in
     let* session_get := lift (dot_get s) in
     let* head := lift (url_head self "initCall") in
     let* result :=
       session_get
         (head +:+ "&phone=" +:+ phone +:+ "&code=" +:+ format code
          +:+ optional_param "client" client
          +:+ optional_param "unique" unique)
         timeout in
     lift (json_body result))
    (fun err =>
       raise (GetException (class_name self) "init_call" MsgInitCallFailed err)).

(** [init_repeat], lines 212-241 *)
Definition init_repeat (self : Instance) (uid : string) (timeout : Z) : M json :=
  try_except_RequestException
    (let* s := lift (session self) in
     let* session_get := lift (dot_get s) in
     let* head := lift (url_head self "initRepeat") in
     let* result := session_get (head +:+ "&uid=" +:+ uid) timeout in
     lift (json_body result))
    (fun err =>
       raise (GetException (class_name self) "init_repeat" MsgInitRepeatFailed err)).

(** [get_info], lines 243-264 *)
Definition get_info (self : Instance) (uid : string) (timeout : Z) : M json :=
  try_except_RequestException
    (let* s := lift (session self) in
     let* session_get := lift (dot_get s) in
     let* head := lift (url_head self "getInfo") in
     let* result := session_get (head +:+ "&uid=" +:+ uid) timeout in
     lift (json_body result))
    (fun err =>
       raise (GetException (class_name self) "init_repeat" MsgGetInfoFailed err)).

(** [get_balance], lines 266-290 *)
Definition get_balance (self : Instance) (timeout : Z) : M json :=
  try_except_RequestException
    (let* s := lift (session self) in
     let* session_get := lift (dot_get s) in
     let* head := lift (url_head self "getBalance") in
     let* result := session_get head timeout in
     lift (json_body result))
    (fun err =>
       raise (GetException (class_name self) "init_repeat" MsgGetBalanceFailed err)).

(** [get_service], lines 292-316 *)
Definition get_service (self : Instance) (timeout : Z) : M json :=
  try_except_RequestException
    (let* s := lift (session self) in
     let* session_get := lift (dot_get s) in
     let* head := lift (url_head self "getService") in
     let* result := session_get head timeout in
     lift (json_body result))
    (fun err =>
       raise (GetException (class_name self) "init_repeat" MsgGetBalanceFailed err)).

(** The five operations as one call, to speak of all of them at once. *)
Inductive operation :=
| InitCall (phone : string) (code : value) (client unique : option string)
| InitRepeat (uid : string)
| GetInfo (uid : string)
| GetBalance
| GetService.

Definition call (self : Instance) (op : operation) (timeout : Z) : M json :=
  match op with
  | InitCall phone code client unique =>
      init_call self phone code client unique timeout
  | InitRepeat uid => init_repeat self uid timeout
  | GetInfo uid => get_info self uid timeout
  | GetBalance => get_balance self timeout
  | GetService => get_service self timeout
  end.

(** ** Definitions used to state and prove the properties *)

(** The part of an operation inside its [try]: look up the session and its
    [get], build the URL from the head with [mk], send, decode. *)
Definition request_body (self : Instance) (endpoint : string)
    (mk : string -> string) (timeout : Z) : M json :=
  let* s := lift (session self) in
  let* session_get := lift (dot_get s) in
  let* head := lift (url_head self endpoint) in
  let* result := session_get (mk head) timeout in
  lift (json_body result).

(** What the [except] clause makes of the outcome of the [try] body. *)
Definition reraised (qualname method : string) (msg : message)
    (o : outcome json) : outcome json :=
  match o with
  | Return j => Return j
  | Raise err =>
      if is_RequestException err
      then Raise (GetException qualname method msg err)
      else Raise err
  end.

(** An optional identifier of more than 64 characters. *)
Definition too_long (v : option string) : bool :=
  match v with
  | Some x => (64 <? String.length x)%nat
  | None => false
  end.

Definition is_Warning (ev : event) : bool :=
  match ev with
  | Warning _ _ => true
  | _ => false
  end.

Definition is_LogRecord (ev : event) : bool :=
  match ev with
  | LogRecord _ _ => true
  | _ => false
  end.

(** Modelled from the spec: the typed result models.  Their classes are not
    defined in [api.py]; the names are those that [test_ucaller_api.py] and
    [test_models.py] import. *)
Definition success_model (op : operation) : string :=
  match op with
  | InitCall _ _ _ _ => "InitCallModel"
  | InitRepeat _ => "InitRepeatModel"
  | GetInfo _ => "GetInfoModel"
  | GetBalance => "GetBalanceModel"
  | GetService => "GetServiceModel"
  end.

(** Modelled from the spec: the generic error model, likewise absent from
    [api.py]. *)
Definition error_model : string := "ErrorResponseModel".

(** *** Sample sessions and clients *)

(** A session whose [get] answers every request with the JSON body [j]. *)
Definition answering (j : json) : Session :=
  {| headers := []; get := fun _ _ => Return {| json_body := Return j |} |}.

(** A session whose [get] raises [requests.exceptions.ConnectionError]. *)
Definition unreachable : Session :=
  {| headers := [];
     get := fun _ _ => Raise (RequestException "ConnectionError" "Connection error") |}.

Definition test_key : string := "32_characters_long_test_key_1234".

(** The state in which
    [APIUCaller(service_id=123, key=test_key, session=s)] leaves the new
    object. *)
Definition test_api (s : Session) : Instance :=
  setattr
    (setattr
       (setattr
          (setattr
             (setattr (new "APIUCaller") "_BaseUCaller__service_id" (VInt 123))
             "_BaseUCaller__key" (VStr test_key))
          "_BaseUCaller__session" (VSession s))
       "_BaseUCaller__base_url" (VStr "https://api.ucaller.ru/"))
    "_BaseUCaller__version_api" (VStr "v1.0").

(** The caller's own assignments
    [api._APIUCaller__base_url = ...; api._APIUCaller__version_api = ...],
    which give the operations the two attributes they read. *)
Definition with_urls (self : Instance) : Instance :=
  setattr
    (setattr self "_APIUCaller__base_url" (VStr "https://api.ucaller.ru/"))
    "_APIUCaller__version_api" (VStr "v1.0").

Definition balance_ok : json :=
  JDict [("status", JBool true); ("rub_balance", JFloat "100.5");
         ("tariff", JStr "test"); ("tariff_name", JStr "Test Tariff")].

Definition service_error : json :=
  JDict [("status", JBool false); ("error", JStr "Service not found");
         ("code", JInt 404)].

Definition repeat_ok : json :=
  JDict [("status", JBool true); ("ucaller_id", JInt 103000);
         ("code", JStr "1000"); ("free_repeated", JBool true)].

(** The statements that close [api.py], lines 425-433: build a client and
    call [init_call] on it. *)
Definition module_script (requests_Session : Session) : M json :=
  let* api := lift (init requests_Session (new "APIUCaller") 15235 "" None) in
  init_call api "9999999999" (VStr "6123") None None 60.

Definition long_key : string :=
  "0123456789012345678901234567890123".

Definition long_id : string :=
  "01234567890123456789012345678901234567890123456789012345678901234".

(** The arguments of [op] pass the checks that precede the request (only
    [init_call] has any). *)
Definition validated (self : Instance) (op : operation) : Prop :=
  match op with
  | InitCall phone code client unique =>
      init_call_checks self phone code client unique = Return tt
  | _ => True
  end.

(** The state in which [__init__] leaves [self] when the key is accepted. *)
Definition initialised (self : Instance) (service_id_ : Z) (key_ : string)
    (s : Session) : Instance :=
  setattr
    (setattr
       (setattr
          (setattr
             (setattr self "_BaseUCaller__service_id" (VInt service_id_))
             "_BaseUCaller__key" (VStr key_))
          "_BaseUCaller__session" (VSession s))
       "_BaseUCaller__base_url" (VStr "https://api.ucaller.ru/"))
    "_BaseUCaller__version_api" (VStr "v1.0").

(** The session that [__init__] stores: the one passed in, or a new one with
    the JSON headers. *)
Definition stored_session (requests_Session : Session)
    (session_ : option Session) : Session :=
  match session_ with
  | Some s => s
  | None => {| headers := json_headers; get := get requests_Session |}
  end.

(** The clients that the class's own interface can produce: the
    constructor, followed by any number of successful assignments to the
    properties [key], [session] and [service_id]. *)
Inductive constructed (requests_Session : Session) : Instance -> Prop :=
| by_init cls sid key_ sess self :
    init requests_Session (new cls) sid key_ sess = Return self ->
    constructed requests_Session self
| by_set_key self key_ self' :
    constructed requests_Session self ->
    set_key self key_ = Return self' ->
    constructed requests_Session self'
| by_set_session self sess self' :
    constructed requests_Session self ->
    set_session self sess = Return self' ->
    constructed requests_Session self'
| by_set_service_id self sid self' :
    constructed requests_Session self ->
    set_service_id self sid = Return self' ->
    constructed requests_Session self'.

(** The object holds a session, and no attribute [_APIUCaller__base_url]. *)
Definition lacks_base_url (self : Instance) : Prop :=
  dict self !! "_APIUCaller__base_url" = None /\
  exists s, dict self !! "_BaseUCaller__session" = Some (VSession s).

(** ** Measures on the strings that a pattern accepts *)

Definition all_ascii : list ascii := map ascii_of_nat (seq 0 256).

(** The characters of a string, for [In]. *)
Fixpoint chars (s : string) : list ascii :=
  match s with
  | EmptyString => []
  | String c s' => c :: chars s'
  end.

Section Measures.
Local Open Scope nat_scope.

(** Every character weighs [w c]; a string weighs the sum. *)
Variable w : ascii -> nat.

Fixpoint weight (s : string) : nat :=
  match s with
  | EmptyString => 0
  | String c s' => w c + weight s'
  end.

(** The weights of the characters of a class. *)
Definition class_weights (p : ascii -> bool) : list nat :=
  map w (List.filter p all_ascii).

Definition class_min (p : ascii -> bool) : nat :=
  match class_weights p with
  | [] => 0
  | x :: xs => fold_right Nat.min x xs
  end.

Definition class_max (p : ascii -> bool) : nat :=
  fold_right Nat.max 0 (class_weights p).

(** The least and the greatest weight of what [r] can consume. *)
Fixpoint wmin (r : regex) : nat :=
  match r with
  | Bol | Eol | Eps => 0
  | Lit c => w c
  | Class p => class_min p
  | Cat r1 r2 => wmin r1 + wmin r2
  | Alt r1 r2 => Nat.min (wmin r1) (wmin r2)
  | Opt _ => 0
  end.

Fixpoint wmax (r : regex) : nat :=
  match r with
  | Bol | Eol | Eps => 0
  | Lit c => w c
  | Class p => class_max p
  | Cat r1 r2 => wmax r1 + wmax r2
  | Alt r1 r2 => Nat.max (wmax r1) (wmax r2)
  | Opt r1 => wmax r1
  end.

End Measures.

Definition is_Eps (r : regex) : bool :=
  match r with
  | Eps => true
  | _ => false
  end.

(** The pattern ends with [$] (followed at most by [Eps]). *)
Fixpoint anchored (r : regex) : bool :=
  match r with
  | Eol => true
  | Cat r1 r2 => if is_Eps r2 then anchored r1 else anchored r2
  | _ => false
  end.

(** The characters that the phone pattern can consume. *)
Definition phone_char (c : ascii) : bool :=
  digit c || space c || Ascii.eqb c "+" || Ascii.eqb c "("
  || Ascii.eqb c ")" || Ascii.eqb c "-".

Definition is_digit (c : ascii) : nat := if digit c then 1%nat else 0%nat.
Definition not_phone_char (c : ascii) : nat :=
  if phone_char c then 0%nat else 1%nat.

(** The number of characters of [s] among 0-9. *)
Definition digits (s : string) : nat := weight is_digit s.

(** *** Parts of the phone pattern *)

(** [(\+7|7|8)] *)
Definition country_group : regex :=
  Alt (Cat (Lit "+") (Lit "7")) (Alt (Lit "7") (Lit "8")).

(** What follows the first digit of the operator code. *)
Definition after_first_digit : regex :=
  cat_all
    [ times 2 (Class digit);
      Opt (Lit ")");
      Opt (Class sep);
      times 3 (Class digit);
      Opt (Class sep);
      times 2 (Class digit);
      Opt (Class sep);
      times 2 (Class digit);
      Eol ].

(** What follows the optional country group. *)
Definition after_country : regex :=
  Cat (Opt (Class sep))
    (Cat (Opt (Lit "(")) (Cat (Class d489) after_first_digit)).

(** ** BaseUCaller: the class attributes and what reads them *)

(** The text of [__REGEX_PHONE], line 8; [REGEX_PHONE] is the pattern that
    [re] compiles it to. *)
Definition REGEX_PHONE_source : string :=
  "^(\+7|7|8)?[\s\-]?\(?[489][0-9]{2}\)?[\s\-]?[0-9]{3}[\s\-]?[0-9]{2}[\s\-]?[0-9]{2}$".

Definition ORG_URL : string := "https://ucaller.ru/".
Definition DOC_URL : string := "https://ucaller.ru/doc".

(** The attributes of the class [BaseUCaller], lines 8-10, under their
    mangled names. *)
Definition class_attributes : gmap string value :=
  <["_BaseUCaller__REGEX_PHONE" := VStr REGEX_PHONE_source]>
    (<["_BaseUCaller__ORG_URL" := VStr ORG_URL]>
       (<["_BaseUCaller__DOC_URL" := VStr DOC_URL]> ∅)).

(** [self.name] for a name that the class also defines: the attribute of
    the instance if it has one, that of the class otherwise. *)
Definition getattr_or_class (self : Instance) (name : string) : outcome value :=
  match dict self !! name with
  | Some v => Return v
  | None =>
      match class_attributes !! name with
      | Some v => Return v
      | None =>
          Raise (AttributeError
                   ("'" +:+ class_name self +:+ "' object has no attribute '"
                    +:+ name +:+ "'"))
      end
  end.

(** [__doc_uCaller__], lines 48-53 *)
Definition __doc_uCaller__ (self : Instance) : outcome value :=
  getattr_or_class self "_BaseUCaller__DOC_URL".

(** [__service_url__], lines 55-60 *)
Definition __service_url__ (self : Instance) : outcome value :=
  getattr_or_class self "_BaseUCaller__ORG_URL".

(** [regex_phone] getter, lines 62-64 *)
Definition regex_phone (self : Instance) : outcome value :=
  getattr_or_class self "_BaseUCaller__REGEX_PHONE".

(** [regex_phone] setter, lines 66-68: an assignment to the instance *)
Definition set_regex_phone (self : Instance) (regex_ : string) : Instance :=
  setattr self "_BaseUCaller__REGEX_PHONE" (VStr regex_).

(** The clients that the constructor and all four property setters can
    produce. *)
Inductive configured (requests_Session : Session) : Instance -> Prop :=
| cfg_init cls sid key_ sess self :
    init requests_Session (new cls) sid key_ sess = Return self ->
    configured requests_Session self
| cfg_set_key self key_ self' :
    configured requests_Session self ->
    set_key self key_ = Return self' ->
    configured requests_Session self'
| cfg_set_session self sess self' :
    configured requests_Session self ->
    set_session self sess = Return self' ->
    configured requests_Session self'
| cfg_set_service_id self sid self' :
    configured requests_Session self ->
    set_service_id self sid = Return self' ->
    configured requests_Session self'
| cfg_set_regex_phone self regex_ :
    configured requests_Session self ->
    configured requests_Session (set_regex_phone self regex_).

(** *** The request of each operation *)

Definition endpoint (op : operation) : string :=
  match op with
  | InitCall _ _ _ _ => "initCall"
  | InitRepeat _ => "initRepeat"
  | GetInfo _ => "getInfo"
  | GetBalance => "getBalance"
  | GetService => "getService"
  end.

(** The parameters that the operation appends after the key. *)
Definition query (op : operation) : string :=
  match op with
  | InitCall phone code client unique =>
      "&phone=" +:+
      match change_phone phone with Return p => p | Raise _ => "" end
      +:+ "&code=" +:+ format code
      +:+ optional_param "client" client
      +:+ optional_param "unique" unique
  | InitRepeat uid => "&uid=" +:+ uid
  | GetInfo uid => "&uid=" +:+ uid
  | GetBalance => ""
  | GetService => ""
  end.

(** The method name that the [except] clause of the operation passes to
    [GetException]. *)
Definition handler_method (op : operation) : string :=
  match op with
  | InitCall _ _ _ _ => "init_call"
  | _ => "init_repeat"
  end.

(** The message that the [except] clause of the operation builds. *)
Definition handler_message (op : operation) : message :=
  match op with
  | InitCall _ _ _ _ => MsgInitCallFailed
  | InitRepeat _ => MsgInitRepeatFailed
  | GetInfo _ => MsgGetInfoFailed
  | GetBalance => MsgGetBalanceFailed
  | GetService => MsgGetBalanceFailed
  end.

(** A session whose [get] raises the builtin [ConnectionError], which is
    not a [requests] exception. *)
Definition disconnected : Session :=
  {| headers := [];
     get := fun _ _ => Raise (OtherError "ConnectionError" "Connection error") |}.

(** A session whose responses fail to decode:
    [requests.exceptions.JSONDecodeError]. *)
Definition garbled : Session :=
  {| headers := [];
     get := fun _ _ =>
              Return {| json_body :=
                          Raise (RequestException "JSONDecodeError"
                                   "Expecting value") |} |}.

(** * Properties *)

(** ** Evaluation on concrete inputs *)

Example check_phone_plain : check_phone "89091234567" = true.
Proof. reflexivity. Qed.

Example check_phone_separators : check_phone "8(909)123-45-67" = true.
Proof. reflexivity. Qed.

Example check_phone_bare : check_phone "9999999999" = true.
Proof. reflexivity. Qed.

Example check_phone_trailing_newline :
  check_phone ("79091234567" +:+ String "010" "") = true.
Proof. reflexivity. Qed.

Example check_phone_short : check_phone "12345" = false.
Proof. reflexivity. Qed.

Example check_phone_letters : check_phone "abc" = false.
Proof. reflexivity. Qed.

Example change_phone_bare : change_phone "9999999999" = Return "7999999999".
Proof. reflexivity. Qed.

Example change_phone_plus : change_phone "+79091234567" = Return "79091234567".
Proof. reflexivity. Qed.

Example change_phone_lone_plus :
  change_phone "+" = Raise (IndexError "string index out of range").
Proof. reflexivity. Qed.

Example test_api_constructed s rs :
  init rs (new "APIUCaller") 123 test_key (Some s) = Return (test_api s).
Proof. reflexivity. Qed.

Example module_script_raises rs :
  module_script rs =
  (Raise (AttributeError
            "'APIUCaller' object has no attribute '_APIUCaller__base_url'"),
   []).
Proof. reflexivity. Qed.

Example format_service_id : format (VInt 15235) = "15235".
Proof. reflexivity. Qed.

(** ** Helper lemmas *)

Lemma getattr_raise self name e :
  getattr self name = Raise e -> is_RequestException e = false.
Proof.
  unfold getattr. destruct (dict self !! name); intros H; inversion H.
  reflexivity.
Qed.

Lemma getattr_setattr_eq self name v :
  getattr (setattr self name v) name = Return v.
Proof. unfold getattr, setattr; simpl. by rewrite lookup_insert_eq. Qed.

Lemma getattr_setattr_ne self name name' v :
  name <> name' ->
  getattr (setattr self name v) name' =
  match dict self !! name' with
  | Some w => Return w
  | None =>
      Raise (AttributeError
               ("'" +:+ class_name self +:+ "' object has no attribute '"
                +:+ name' +:+ "'"))
  end.
Proof.
  intros Hne. unfold getattr, setattr; simpl.
  by rewrite lookup_insert_ne.
Qed.

Lemma url_head_raise self endpoint e :
  url_head self endpoint = Raise e -> is_RequestException e = false.
Proof.
  unfold url_head, service_id, key.
  destruct (getattr self "_APIUCaller__base_url") eqn:E1; simpl;
    [| intros H; inversion H; subst; eapply getattr_raise; eauto].
  destruct (getattr self "_APIUCaller__version_api") eqn:E2; simpl;
    [| intros H; inversion H; subst; eapply getattr_raise; eauto].
  destruct (getattr self "_BaseUCaller__service_id") eqn:E3; simpl;
    [| intros H; inversion H; subst; eapply getattr_raise; eauto].
  destruct (getattr self "_BaseUCaller__key") eqn:E4; simpl;
    [| intros H; inversion H; subst; eapply getattr_raise; eauto].
  discriminate.
Qed.

Lemma request_body_spec self endpoint mk timeout :
  (exists e, is_RequestException e = false /\
             request_body self endpoint mk timeout = (Raise e, []))
  \/ (exists s head,
        session self = Return (VSession s) /\
        url_head self endpoint = Return head /\
        request_body self endpoint mk timeout =
        (obind (get s (mk head) timeout) json_body,
         [HttpGet (mk head) timeout])).
Proof.
  unfold request_body, session.
  destruct (getattr self "_BaseUCaller__session") as [v|e] eqn:Es; simpl.
  - destruct v as [| z | str | s]; simpl;
      try (left; eexists; split; [| reflexivity]; reflexivity).
    destruct (url_head self endpoint) as [head|e] eqn:Eh; simpl.
    + right. exists s, head. repeat split.
      destruct (get s (mk head) timeout) as [resp|e]; simpl; [| reflexivity].
      destruct (json_body resp); reflexivity.
    + left. exists e. split; [eapply url_head_raise; eauto | reflexivity].
  - left. exists e. split; [eapply getattr_raise; eauto | reflexivity].
Qed.

Lemma try_request_body self endpoint mk timeout qualname method msg :
  (exists e,
     try_except_RequestException (request_body self endpoint mk timeout)
       (fun err => raise (GetException qualname method msg err))
     = (Raise e, []))
  \/ (exists s head,
        session self = Return (VSession s) /\
        url_head self endpoint = Return head /\
        try_except_RequestException (request_body self endpoint mk timeout)
          (fun err => raise (GetException qualname method msg err))
        = (reraised qualname method msg
             (obind (get s (mk head) timeout) json_body),
           [HttpGet (mk head) timeout])).
Proof.
  destruct (request_body_spec self endpoint mk timeout)
    as [(e & He & ->) | (s & head & Hs & Hh & ->)].
  - left. exists e. simpl. by rewrite He.
  - right. exists s, head. repeat split; [done | done |].
    unfold try_except_RequestException, reraised.
    destruct (obind (get s (mk head) timeout) json_body) as [j|err];
      [reflexivity |].
    destruct (is_RequestException err); reflexivity.
Qed.

(** Every call either raises before anything is sent, or sends exactly one
    request to the stored session and ends as the [except] clause decides. *)
Lemma call_spec self op timeout :
  (exists e, call self op timeout = (Raise e, []))
  \/ (exists s url method msg,
        session self = Return (VSession s) /\
        call self op timeout =
        (reraised (class_name self) method msg
           (obind (get s url timeout) json_body),
         [HttpGet url timeout])).
Proof.
  destruct op as [phone code client unique | uid | uid | |]; simpl.
  - unfold init_call.
    destruct (init_call_checks self phone code client unique) as [[]|e];
      simpl; [| left; eauto].
    destruct (change_phone phone) as [phone'|e]; simpl; [| left; eauto].
    match goal with
    | |- context [try_except_RequestException ?b ?h] =>
        change b with
          (request_body self "initCall"
             (fun head =>
                head +:+ "&phone=" +:+ phone' +:+ "&code=" +:+ format code
                +:+ optional_param "client" client
                +:+ optional_param "unique" unique) timeout)
    end.
    destruct (try_request_body self "initCall"
                (fun head =>
                   head +:+ "&phone=" +:+ phone' +:+ "&code=" +:+ format code
                   +:+ optional_param "client" client
                   +:+ optional_param "unique" unique) timeout
                (class_name self) "init_call" MsgInitCallFailed)
      as [(e & ->) | (s & head & Hs & Hh & ->)]; simpl.
    + left; eauto.
    + right. eexists s, _, _, _. split; [done | reflexivity].
  - destruct (try_request_body self "initRepeat"
                (fun head => head +:+ "&uid=" +:+ uid) timeout
                (class_name self) "init_repeat" MsgInitRepeatFailed)
      as [(e & He) | (s & head & Hs & Hh & He)].
    + left. exists e. exact He.
    + right. eexists s, _, _, _. split; [done | exact He].
  - destruct (try_request_body self "getInfo"
                (fun head => head +:+ "&uid=" +:+ uid) timeout
                (class_name self) "init_repeat" MsgGetInfoFailed)
      as [(e & He) | (s & head & Hs & Hh & He)].
    + left. exists e. exact He.
    + right. eexists s, _, _, _. split; [done | exact He].
  - destruct (try_request_body self "getBalance" (fun head => head) timeout
                (class_name self) "init_repeat" MsgGetBalanceFailed)
      as [(e & He) | (s & head & Hs & Hh & He)].
    + left. exists e. exact He.
    + right. eexists s, _, _, _. split; [done | exact He].
  - destruct (try_request_body self "getService" (fun head => head) timeout
                (class_name self) "init_repeat" MsgGetBalanceFailed)
      as [(e & He) | (s & head & Hs & Hh & He)].
    + left. exists e. exact He.
    + right. eexists s, _, _, _. split; [done | exact He].
Qed.

Lemma init_spec rs self sid key_ sess :
  init rs self sid key_ sess =
  if (32 <? String.length key_)%nat
  then Raise (AttributeError "'int' object has no attribute '__name__'")
  else Return (initialised self sid key_ (stored_session rs sess)).
Proof.
  unfold init, service_id. rewrite getattr_setattr_eq.
  destruct (32 <? String.length key_)%nat; simpl; [reflexivity |].
  destruct sess; reflexivity.
Qed.

Lemma initialised_session self sid key_ s :
  session (initialised self sid key_ s) = Return (VSession s).
Proof.
  unfold session, getattr, initialised, setattr; simpl.
  by simplify_map_eq.
Qed.

Lemma initialised_key self sid key_ s :
  key (initialised self sid key_ s) = Return (VStr key_).
Proof.
  unfold key, getattr, initialised, setattr; simpl.
  by simplify_map_eq.
Qed.

Lemma initialised_lacks_base_url cls sid key_ s :
  lacks_base_url (initialised (new cls) sid key_ s).
Proof.
  unfold lacks_base_url, initialised, setattr, new; simpl.
  split; [by simplify_map_eq | exists s; by simplify_map_eq].
Qed.

Lemma setattr_lacks_base_url self name v :
  name <> "_APIUCaller__base_url" ->
  (name = "_BaseUCaller__session" -> exists s, v = VSession s) ->
  lacks_base_url self ->
  lacks_base_url (setattr self name v).
Proof.
  intros Hname Hsess [Hnone [s Hs]]. unfold lacks_base_url, setattr; simpl.
  split; [by rewrite lookup_insert_ne |].
  destruct (decide (name = "_BaseUCaller__session")) as [-> | Hne].
  - destruct (Hsess eq_refl) as [s' ->]. exists s'.
    by rewrite lookup_insert_eq.
  - exists s. by rewrite lookup_insert_ne.
Qed.

(** The constructor and the setters never create the attribute that the
    operations read. *)
Lemma constructed_lacks_base_url rs self :
  constructed rs self -> lacks_base_url self.
Proof.
  induction 1 as [cls sid key_ sess self Hinit
                 | self key_ self' _ IH Hset
                 | self sess self' _ IH Hset
                 | self sid self' _ IH Hset].
  - rewrite init_spec in Hinit.
    destruct (32 <? String.length key_)%nat; [discriminate |].
    injection Hinit as <-. apply initialised_lacks_base_url.
  - unfold set_key in Hset.
    destruct (32 <? String.length key_)%nat.
    + destruct (service_id self); discriminate Hset.
    + injection Hset as <-.
      apply setattr_lacks_base_url; [discriminate | discriminate | exact IH].
  - destruct sess as [s |]; simpl in Hset.
    + injection Hset as <-.
      apply setattr_lacks_base_url; [discriminate | eauto | exact IH].
    + destruct (session self); discriminate Hset.
  - unfold set_service_id in Hset.
    destruct (getattr self "_BaseUCaller__service_id") as [current |];
      simpl in Hset; [| discriminate].
    destruct (int_eq sid current).
    + destruct (service_id self); discriminate Hset.
    + injection Hset as <-.
      apply setattr_lacks_base_url; [discriminate | discriminate | exact IH].
Qed.

Lemma change_phone_defined phone :
  check_phone phone = true -> exists p, change_phone phone = Return p.
Proof.
  intros Hc. destruct phone as [| c0 rest]; [discriminate Hc |].
  unfold change_phone; simpl.
  destruct (Ascii.eqb c0 "+") eqn:Ep; simpl.
  - destruct rest as [| c1 rest'].
    + apply Ascii.eqb_eq in Ep. subst c0. discriminate Hc.
    + simpl. destruct (Ascii.eqb c1 "7"); [eauto |].
      destruct (Ascii.eqb c0 "7"); [eauto |].
      destruct (Ascii.eqb c0 "8"); eauto.
  - destruct (Ascii.eqb c0 "7"); [eauto |].
    destruct (Ascii.eqb c0 "8"); eauto.
Qed.

Lemma checks_phone self phone code client unique :
  init_call_checks self phone code client unique = Return tt ->
  check_phone phone = true.
Proof.
  unfold init_call_checks.
  destruct (check_phone phone); [reflexivity | discriminate].
Qed.

(** ** Phone normalisation *)

(** C10.  For every string [phone] of length at least 2, [change_phone]
    returns a string that starts with the character 7, and applying
    [change_phone] to that result returns it again. *)
Theorem change_phone_seven_idempotent (phone : string) :
  (2 <= String.length phone)%nat ->
  exists r rest,
    change_phone phone = Return r /\
    r = String "7" rest /\
    change_phone r = Return r.
Proof.
  intros Hlen.
  destruct phone as [| c0 [| c1 rest]]; simpl in Hlen; try lia.
  unfold change_phone at 1; simpl.
  destruct (Ascii.eqb c0 "+") eqn:Eplus; simpl.
  - destruct (Ascii.eqb c1 "7") eqn:E7; simpl.
    + apply Ascii.eqb_eq in E7. subst c1.
      exists (String "7" rest), rest. repeat split.
    + destruct (Ascii.eqb c0 "7") eqn:E07.
      * apply Ascii.eqb_eq in E07. subst c0. discriminate Eplus.
      * destruct (Ascii.eqb c0 "8");
          exists (String "7" (String c1 rest)), (String c1 rest);
          repeat split.
  - destruct (Ascii.eqb c0 "7") eqn:E07.
    + apply Ascii.eqb_eq in E07. subst c0.
      exists (String "7" (String c1 rest)), (String c1 rest). repeat split.
    + destruct (Ascii.eqb c0 "8");
        exists (String "7" (String c1 rest)), (String c1 rest);
        repeat split.
Qed.

Lemma change_phone_seven_idempotent_witness :
  (2 <= String.length "9999999999")%nat /\
  exists r rest,
    change_phone "9999999999" = Return r /\
    r = String "7" rest /\
    change_phone r = Return r.
Proof.
  split; [simpl; lia |].
  apply (change_phone_seven_idempotent "9999999999"). simpl; lia.
Defined.

(** C3 (as stated, refuted).  The claim has all four recognised formats
    normalised to +79091234567; [change_phone] yields no plus sign and keeps
    the separators, so the four results are not even one value. *)
Lemma change_phone_not_canonical :
  change_phone "89091234567" = Return "79091234567" /\
  change_phone "89091234567" <> Return "+79091234567" /\
  change_phone "8(909)123-45-67" = Return "7(909)123-45-67" /\
  change_phone "8(909)123-45-67" <> change_phone "89091234567".
Proof. repeat split; discriminate. Qed.

(** C3 (as amended).  The four recognised formats are accepted by
    [check_phone], and [change_phone] rewrites only the leading character:
    a leading 8 becomes 7 and a leading 7 stays, whatever follows.  So
    89091234567 and 79091234567 both give 79091234567, 8(909)123-45-67 gives
    7(909)123-45-67 and 7 909 123 45 67 is returned as it is. *)
Theorem change_phone_recognised_formats :
  (forall rest, change_phone (String "8" rest) = Return (String "7" rest)) /\
  (forall rest, change_phone (String "7" rest) = Return (String "7" rest)) /\
  check_phone "89091234567" = true /\
  check_phone "79091234567" = true /\
  check_phone "8(909)123-45-67" = true /\
  check_phone "7 909 123 45 67" = true /\
  change_phone "89091234567" = Return "79091234567" /\
  change_phone "79091234567" = Return "79091234567" /\
  change_phone "8(909)123-45-67" = Return "7(909)123-45-67" /\
  change_phone "7 909 123 45 67" = Return "7 909 123 45 67".
Proof. repeat split. Qed.

(** ** Validation in init_call *)

Lemma init_call_checks_raise self phone code client unique timeout e :
  init_call_checks self phone code client unique = Raise e ->
  init_call self phone code client unique timeout = (Raise e, []).
Proof. intros H. unfold init_call. rewrite H. reflexivity. Qed.

(** C6.  An [init_call] with a phone that does not match the pattern, a code
    whose length is not 4, or a client or unique identifier of more than 64
    characters raises [ParamSetException] and hands nothing to the session;
    and whenever the checks raise, the call raises the same error with an
    empty trace. *)
Theorem validation_precedes_request self phone (code : string) client unique
    timeout :
  check_phone phone = false \/ String.length code <> 4%nat \/
  too_long client = true \/ too_long unique = true ->
  (exists msg,
     init_call self phone (VStr code) client unique timeout =
     (Raise (ParamSetException (class_name self) "init_repeat" msg), []))
  /\ (forall (code' : value) e,
        init_call_checks self phone code' client unique = Raise e ->
        init_call self phone code' client unique timeout = (Raise e, [])).
Proof.
  intros H. split.
  2: { intros code' e He. by apply init_call_checks_raise. }
  assert (exists msg,
             init_call_checks self phone (VStr code) client unique =
             Raise (ParamSetException (class_name self) "init_repeat" msg))
    as [msg Hmsg].
  { unfold init_call_checks.
    destruct (check_phone phone) eqn:Ephone; simpl; [| eauto].
    destruct (4 <? String.length code)%nat eqn:Egt; simpl; [eauto |].
    destruct (String.length code <? 4)%nat eqn:Elt; simpl; [eauto |].
    apply Nat.ltb_ge in Egt, Elt.
    destruct client as [c |]; simpl in *.
    - destruct (64 <? String.length c)%nat eqn:Ec; simpl; [eauto |].
      destruct unique as [u |]; simpl in *.
      + destruct (64 <? String.length u)%nat eqn:Eu; simpl; [eauto |].
        destruct H as [H | [H | [H | H]]]; try discriminate; lia.
      + destruct H as [H | [H | [H | H]]]; try discriminate; lia.
    - destruct unique as [u |]; simpl in *.
      + destruct (64 <? String.length u)%nat eqn:Eu; simpl; [eauto |].
        destruct H as [H | [H | [H | H]]]; try discriminate; lia.
      + destruct H as [H | [H | [H | H]]]; try discriminate; lia. }
  exists msg. by apply init_call_checks_raise.
Qed.

Lemma validation_precedes_request_witness :
  (check_phone "89091234567" = false \/ String.length "1234" <> 4%nat \/
   too_long (Some long_id) = true \/ too_long None = true)
  /\ (exists msg,
        init_call (test_api unreachable) "89091234567" (VStr "1234")
          (Some long_id) None 60 =
        (Raise (ParamSetException "APIUCaller" "init_repeat" msg), [])).
Proof.
  split; [right; right; left; reflexivity |].
  apply (validation_precedes_request (test_api unreachable) "89091234567"
           "1234" (Some long_id) None 60).
  right; right; left; reflexivity.
Defined.

(** C4 (as stated, refuted).  The claim has 12-34 accepted as the code 1234;
    [init_call] removes no separator, counts five characters and raises. *)
Lemma code_with_separator_rejected :
  check_phone "89091234567" = true /\
  init_call_checks (test_api unreachable) "89091234567" (VStr "12-34")
    None None =
  Raise (ParamSetException "APIUCaller" "init_repeat" MsgCodeLength) /\
  init_call (test_api unreachable) "89091234567" (VStr "12-34") None None 60 =
  (Raise (ParamSetException "APIUCaller" "init_repeat" MsgCodeLength), []).
Proof. repeat split. Qed.

(** C4 (as amended).  With a phone that matches the pattern, the code check
    of [init_call] removes no separator: a string code passes exactly when it
    has exactly 4 characters, every shorter or longer string raises
    [ParamSetException], and an integer or [None] code raises the
    [TypeError] of [len]. *)
Theorem code_check_counts_characters self phone client unique :
  check_phone phone = true ->
  (forall code : string,
      init_call_checks self phone (VStr code) None None = Return tt <->
      String.length code = 4%nat)
  /\ (forall code : string,
        String.length code <> 4%nat ->
        init_call_checks self phone (VStr code) client unique =
        Raise (ParamSetException (class_name self) "init_repeat" MsgCodeLength))
  /\ (forall z,
        init_call_checks self phone (VInt z) client unique =
        Raise (TypeError "object of type 'int' has no len()"))
  /\ init_call_checks self phone VNone client unique =
      Raise (TypeError "object of type 'NoneType' has no len()").
Proof.
  intros Hphone. unfold init_call_checks. rewrite Hphone. simpl.
  repeat split.
  - destruct (4 <? String.length code)%nat eqn:Egt; simpl; [discriminate |].
    destruct (String.length code <? 4)%nat eqn:Elt; simpl; [discriminate |].
    apply Nat.ltb_ge in Egt, Elt. lia.
  - intros ->. reflexivity.
  - intros code Hlen.
    destruct (4 <? String.length code)%nat eqn:Egt; simpl; [reflexivity |].
    destruct (String.length code <? 4)%nat eqn:Elt; simpl; [reflexivity |].
    apply Nat.ltb_ge in Egt, Elt. lia.
Qed.

Lemma code_check_counts_characters_witness :
  check_phone "89091234567" = true /\
  (forall code : string,
      init_call_checks (test_api unreachable) "89091234567" (VStr code)
        None None = Return tt <->
      String.length code = 4%nat).
Proof.
  split; [reflexivity |].
  apply (code_check_counts_characters (test_api unreachable) "89091234567"
           None None).
  reflexivity.
Defined.

(** ** Configuration: key and session *)

Lemma set_key_long self key_ :
  (32 < String.length key_)%nat ->
  exists text, set_key self key_ = Raise (AttributeError text).
Proof.
  intros Hlen. unfold set_key.
  apply Nat.ltb_lt in Hlen. rewrite Hlen.
  unfold service_id, getattr.
  destruct (dict self !! "_BaseUCaller__service_id"); simpl; eauto.
Qed.

(** C7 (what the code does).  A key of more than 32 characters makes the
    constructor and the key setter fail at once, but with the
    [AttributeError] of [self.service_id.__name__], raised while the
    arguments of [SetKey] are evaluated, so that [SetKey] itself is never
    raised.  A key of at most 32 characters is accepted by both and stored
    unchanged. *)
Theorem key_length_check rs self sid key_ sess :
  ((32 < String.length key_)%nat ->
   init rs self sid key_ sess =
   Raise (AttributeError "'int' object has no attribute '__name__'")
   /\ exists text, set_key self key_ = Raise (AttributeError text))
  /\ ((String.length key_ <= 32)%nat ->
      (exists self',
          init rs self sid key_ sess = Return self' /\
          key self' = Return (VStr key_))
      /\ (exists self',
            set_key self key_ = Return self' /\
            key self' = Return (VStr key_))).
Proof.
  split; intros Hlen.
  - split; [| by apply set_key_long].
    rewrite init_spec. apply Nat.ltb_lt in Hlen. by rewrite Hlen.
  - apply Nat.ltb_ge in Hlen. split.
    + eexists. rewrite init_spec, Hlen. split; [reflexivity |].
      apply initialised_key.
    + eexists. unfold set_key. rewrite Hlen. split; [reflexivity |].
      apply getattr_setattr_eq.
Qed.

Lemma key_length_check_witness :
  ((32 < String.length long_key)%nat /\
   init unreachable (new "APIUCaller") 123 long_key None =
   Raise (AttributeError "'int' object has no attribute '__name__'"))
  /\ ((String.length "" <= 32)%nat /\
      exists self',
        init unreachable (new "APIUCaller") 123 "" None = Return self' /\
        key self' = Return (VStr "")).
Proof.
  split.
  - split; [simpl; lia |].
    apply (key_length_check unreachable (new "APIUCaller") 123 long_key None).
    simpl; lia.
  - split; [simpl; lia |].
    apply (key_length_check unreachable (new "APIUCaller") 123 "" None).
    simpl; lia.
Defined.

(** C8 (as stated, refuted).  The claim has construction without a session
    fail; [__init__] called with [session=None] returns an object holding a
    session of its own making. *)
Lemma construction_without_session_succeeds :
  exists self s,
    init unreachable (new "APIUCaller") 123 test_key None = Return self /\
    session self = Return (VSession s) /\
    headers s = json_headers.
Proof.
  exists (initialised (new "APIUCaller") 123 test_key
            (stored_session unreachable None)).
  eexists. split; [reflexivity |]. split; [apply initialised_session |].
  reflexivity.
Qed.

(** C8 (as amended).  A missing session is no error at construction: with an
    accepted key, [__init__] without a session stores a new requests session
    that carries the three JSON headers, and with a session stores that
    session.  The session setter given [None] raises and stores nothing;
    given a session it stores it. *)
Theorem session_default_and_setter rs self sid key_ :
  (String.length key_ <= 32)%nat ->
  (exists self',
      init rs self sid key_ None = Return self' /\
      session self' =
      Return (VSession {| headers := json_headers; get := get rs |}))
  /\ (forall s, exists self',
        init rs self sid key_ (Some s) = Return self' /\
        session self' = Return (VSession s))
  /\ (exists e, set_session self None = Raise e)
  /\ (forall s, exists self',
        set_session self (Some s) = Return self' /\
        session self' = Return (VSession s)).
Proof.
  intros Hlen. apply Nat.ltb_ge in Hlen. repeat split.
  - eexists. rewrite init_spec, Hlen. split; [reflexivity |].
    apply initialised_session.
  - intros s. eexists. rewrite init_spec, Hlen. split; [reflexivity |].
    apply initialised_session.
  - unfold set_session, session, getattr.
    destruct (dict self !! "_BaseUCaller__session"); simpl; eauto.
  - intros s. eexists. split; [reflexivity |]. apply getattr_setattr_eq.
Qed.

Lemma session_default_and_setter_witness :
  (String.length test_key <= 32)%nat /\
  exists self',
    init unreachable (new "APIUCaller") 123 test_key None = Return self' /\
    session self' =
    Return (VSession {| headers := json_headers; get := get unreachable |}).
Proof.
  split; [simpl; lia |].
  apply (session_default_and_setter unreachable (new "APIUCaller") 123
           test_key).
  simpl; lia.
Defined.

(** ** The request *)

Lemma request_body_without_base_url self endpoint mk timeout :
  lacks_base_url self ->
  request_body self endpoint mk timeout =
  (Raise (AttributeError
            ("'" +:+ class_name self +:+
             "' object has no attribute '_APIUCaller__base_url'")), []).
Proof.
  intros [Hnone [s Hs]].
  unfold request_body, session, url_head, getattr.
  rewrite Hs, Hnone. reflexivity.
Qed.

(** C5 (what the code does).  On every client that the constructor and the
    property setters can produce, every operation whose arguments pass the
    checks raises [AttributeError] while it builds the URL, because
    [self.__base_url] in the body of [APIUCaller] names an attribute that
    [BaseUCaller.__init__] never sets; no request is handed to the
    session. *)
Theorem constructed_client_sends_no_request rs self op timeout :
  constructed rs self ->
  validated self op ->
  call self op timeout =
  (Raise (AttributeError
            ("'" +:+ class_name self +:+
             "' object has no attribute '_APIUCaller__base_url'")), []).
Proof.
  intros Hc Hvalid. apply constructed_lacks_base_url in Hc.
  destruct op as [phone code client unique | uid | uid | |]; simpl in *.
  - unfold init_call. rewrite Hvalid. simpl.
    destruct (change_phone_defined phone) as [p Hp];
      [eapply checks_phone; eauto |].
    rewrite Hp. simpl.
    match goal with
    | |- context [try_except_RequestException ?b ?h] =>
        change b with
          (request_body self "initCall"
             (fun head =>
                head +:+ "&phone=" +:+ p +:+ "&code=" +:+ format code
                +:+ optional_param "client" client
                +:+ optional_param "unique" unique) timeout)
    end.
    by rewrite request_body_without_base_url.
  - unfold init_repeat.
    change (let* s := lift (session ?a) in _)
      with (request_body a "initRepeat" (fun head => head +:+ "&uid=" +:+ uid)
              timeout).
    by rewrite request_body_without_base_url.
  - unfold get_info.
    change (let* s := lift (session ?a) in _)
      with (request_body a "getInfo" (fun head => head +:+ "&uid=" +:+ uid)
              timeout).
    by rewrite request_body_without_base_url.
  - unfold get_balance.
    change (let* s := lift (session ?a) in _)
      with (request_body a "getBalance" (fun head => head) timeout).
    by rewrite request_body_without_base_url.
  - unfold get_service.
    change (let* s := lift (session ?a) in _)
      with (request_body a "getService" (fun head => head) timeout).
    by rewrite request_body_without_base_url.
Qed.

Lemma constructed_client_sends_no_request_witness :
  constructed unreachable (test_api (answering balance_ok))
  /\ validated (test_api (answering balance_ok))
       (InitCall "89091234567" (VStr "1234") None None)
  /\ call (test_api (answering balance_ok))
       (InitCall "89091234567" (VStr "1234") None None) 60 =
     (Raise (AttributeError
               "'APIUCaller' object has no attribute '_APIUCaller__base_url'"),
      []).
Proof.
  assert (constructed unreachable (test_api (answering balance_ok))) as Hc.
  { apply (by_init unreachable "APIUCaller" 123 test_key
             (Some (answering balance_ok))).
    reflexivity. }
  split; [exact Hc |]. split; [reflexivity |].
  apply (constructed_client_sends_no_request unreachable
           (test_api (answering balance_ok))
           (InitCall "89091234567" (VStr "1234") None None) 60);
    [exact Hc | reflexivity].
Defined.

(** ** Transport errors, response bodies and warnings *)

Lemma call_sent self op timeout s url :
  session self = Return (VSession s) ->
  snd (call self op timeout) = [HttpGet url timeout] ->
  exists method msg,
    call self op timeout =
    (reraised (class_name self) method msg
       (obind (get s url timeout) json_body),
     [HttpGet url timeout]).
Proof.
  intros Hs Htrace.
  destruct (call_spec self op timeout)
    as [(e & Hcall) | (s' & url' & method & msg & Hs' & Hcall)];
    rewrite Hcall in Htrace; simpl in Htrace; [discriminate |].
  rewrite Hs in Hs'. injection Hs' as <-. injection Htrace as <-.
  eauto.
Qed.

(** C1 (as stated, refuted).  The claim has a call whose transport raises a
    connection error log the error and return a null result; [init_call]
    raises [GetException] to its caller and logs nothing. *)
Lemma transport_error_not_swallowed :
  init_call (with_urls (test_api unreachable)) "89091234567" (VStr "1234")
    None None 60 =
  (Raise (GetException "APIUCaller" "init_call" MsgInitCallFailed
            (RequestException "ConnectionError" "Connection error")),
   [HttpGet
      "https://api.ucaller.ru/v1.0/initCall?service_id=123&key=32_characters_long_test_key_1234&phone=79091234567&code=1234"
      60])
  /\ fst (init_call (with_urls (test_api unreachable)) "89091234567"
            (VStr "1234") None None 60) <> Return JNull
  /\ existsb is_LogRecord
       (snd (init_call (with_urls (test_api unreachable)) "89091234567"
               (VStr "1234") None None 60)) = false.
Proof. repeat split. discriminate. Qed.

(** C1 (as amended).  For every operation call whose request reaches the
    session and whose transport step raises a connection error or a timeout
    (any [requests] exception), the call raises [GetException] carrying that
    error to its caller; the request is its only effect, nothing is logged
    and no result is returned. *)
Theorem transport_error_raises_GetException self op timeout s url err :
  session self = Return (VSession s) ->
  snd (call self op timeout) = [HttpGet url timeout] ->
  get s url timeout = Raise err ->
  is_RequestException err = true ->
  exists method msg,
    call self op timeout =
    (Raise (GetException (class_name self) method msg err),
     [HttpGet url timeout]).
Proof.
  intros Hs Htrace Hget Herr.
  destruct (call_sent self op timeout s url Hs Htrace)
    as (method & msg & Hcall).
  exists method, msg. rewrite Hcall, Hget. simpl. by rewrite Herr.
Qed.

Lemma transport_error_raises_GetException_witness :
  exists method msg,
    call (with_urls (test_api unreachable)) GetBalance 60 =
    (Raise (GetException "APIUCaller" method msg
              (RequestException "ConnectionError" "Connection error")),
     [HttpGet
        "https://api.ucaller.ru/v1.0/getBalance?service_id=123&key=32_characters_long_test_key_1234"
        60]).
Proof.
  apply (transport_error_raises_GetException
           (with_urls (test_api unreachable)) GetBalance 60 unreachable
           "https://api.ucaller.ru/v1.0/getBalance?service_id=123&key=32_characters_long_test_key_1234"
           (RequestException "ConnectionError" "Connection error"));
    reflexivity.
Defined.

(** C2 (as stated, refuted).  The claim has a typed model returned; the
    operations return the parsed body itself, a plain [dict], for a body with
    status true and for one with status false. *)
Lemma parsed_body_is_not_a_model :
  get_balance (with_urls (test_api (answering balance_ok))) 60 =
  (Return balance_ok,
   [HttpGet
      "https://api.ucaller.ru/v1.0/getBalance?service_id=123&key=32_characters_long_test_key_1234"
      60])
  /\ field balance_ok "status" = Some (JBool true)
  /\ type_name balance_ok = "dict"
  /\ type_name balance_ok <> success_model GetBalance
  /\ get_service (with_urls (test_api (answering service_error))) 60 =
     (Return service_error,
      [HttpGet
         "https://api.ucaller.ru/v1.0/getService?service_id=123&key=32_characters_long_test_key_1234"
         60])
  /\ field service_error "status" = Some (JBool false)
  /\ type_name service_error <> error_model.
Proof. repeat split; discriminate. Qed.

(** C2 (as amended).  For every operation call whose request reaches the
    session, when the transport returns a JSON body the call returns that
    parsed body itself, unchanged: for status true it holds the fields of the
    JSON, for status false the JSON's error message and numeric code; no
    typed model is built from it. *)
Theorem parsed_body_returned_unchanged self op timeout s url resp j :
  session self = Return (VSession s) ->
  snd (call self op timeout) = [HttpGet url timeout] ->
  get s url timeout = Return resp ->
  json_body resp = Return j ->
  call self op timeout = (Return j, [HttpGet url timeout]).
Proof.
  intros Hs Htrace Hget Hjson.
  destruct (call_sent self op timeout s url Hs Htrace)
    as (method & msg & Hcall).
  rewrite Hcall, Hget. simpl. by rewrite Hjson.
Qed.

Lemma parsed_body_returned_unchanged_witness :
  call (with_urls (test_api (answering service_error))) GetService 60 =
  (Return service_error,
   [HttpGet
      "https://api.ucaller.ru/v1.0/getService?service_id=123&key=32_characters_long_test_key_1234"
      60])
  /\ field service_error "error" = Some (JStr "Service not found")
  /\ field service_error "code" = Some (JInt 404).
Proof.
  split; [| split; reflexivity].
  apply (parsed_body_returned_unchanged
           (with_urls (test_api (answering service_error))) GetService 60
           (answering service_error)
           "https://api.ucaller.ru/v1.0/getService?service_id=123&key=32_characters_long_test_key_1234"
           {| json_body := Return service_error |} service_error);
    reflexivity.
Defined.

(** C9 (as stated, refuted).  The claim has every [init_repeat] emit a
    deprecation warning; a call that sends its request and returns the
    repeat result emits none. *)
Lemma init_repeat_does_not_warn :
  init_repeat (with_urls (test_api (answering repeat_ok))) "103000" 60 =
  (Return repeat_ok,
   [HttpGet
      "https://api.ucaller.ru/v1.0/initRepeat?service_id=123&key=32_characters_long_test_key_1234&uid=103000"
      60])
  /\ existsb is_Warning
       (snd (init_repeat (with_urls (test_api (answering repeat_ok)))
               "103000" 60)) = false.
Proof. repeat split. Qed.

(** C9 (as amended).  No operation emits a warning: [init_repeat], like
    every other operation, ends with its result or its error and a trace
    without any warning. *)
Theorem no_operation_warns self op timeout :
  existsb is_Warning (snd (call self op timeout)) = false.
Proof.
  destruct (call_spec self op timeout)
    as [(e & ->) | (s & url & method & msg & _ & ->)]; reflexivity.
Qed.

(** ** What the phone pattern accepts *)

Section MeasureLemmas.
Local Open Scope nat_scope.
Variable w : ascii -> nat.

Lemma weight_append s1 s2 :
  weight w (s1 +:+ s2) = weight w s1 + weight w s2.
Proof. induction s1 as [| c s1 IH]; simpl; [reflexivity | rewrite IH; lia]. Qed.

Lemma length_append s1 s2 :
  String.length (s1 +:+ s2) = String.length s1 + String.length s2.
Proof. induction s1 as [| c s1 IH]; simpl; [reflexivity | by rewrite IH]. Qed.

Lemma append_assoc s1 s2 s3 : s1 +:+ (s2 +:+ s3) = (s1 +:+ s2) +:+ s3.
Proof.
  induction s1 as [| c s1 IH]; [reflexivity |].
  change (String c (s1 +:+ (s2 +:+ s3)) = String c ((s1 +:+ s2) +:+ s3)).
  by rewrite IH.
Qed.

Lemma in_all_ascii c : In c all_ascii.
Proof.
  unfold all_ascii. rewrite <- (ascii_nat_embedding c).
  apply in_map, in_seq. pose proof (nat_ascii_bounded c). lia.
Qed.

Lemma fold_min_le x xs y :
  In y (x :: xs) -> fold_right Nat.min x xs <= y.
Proof.
  induction xs as [| z xs IH]; simpl.
  - intros [-> | []]. lia.
  - intros [-> | [-> | Hin]]; [| lia |].
    + assert (fold_right Nat.min y xs <= y) by (apply IH; left; reflexivity).
      lia.
    + assert (fold_right Nat.min x xs <= y) by (apply IH; right; exact Hin).
      lia.
Qed.

Lemma fold_max_ge xs y : In y xs -> y <= fold_right Nat.max 0 xs.
Proof.
  induction xs as [| z xs IH]; simpl; [intros [] |].
  intros [-> | Hin]; [lia |]. apply IH in Hin. lia.
Qed.

Lemma class_bounds p c :
  p c = true -> class_min w p <= w c <= class_max w p.
Proof.
  intros Hp.
  assert (In (w c) (class_weights w p)) as Hin.
  { unfold class_weights. apply in_map, filter_In.
    split; [apply in_all_ascii | exact Hp]. }
  split.
  - unfold class_min. destruct (class_weights w p) as [| x xs]; [lia |].
    by apply fold_min_le.
  - by apply fold_max_ge.
Qed.

(** Whatever [accepts] accepts splits into a consumed prefix, whose weight
    lies between [wmin] and [wmax], and a rest accepted by the continuation;
    after an anchored pattern the rest is empty or one newline. *)
Lemma accepts_bounds r :
  forall pos s k,
    accepts r pos s k = true ->
    exists prefix rest,
      s = prefix +:+ rest /\
      wmin w r <= weight w prefix <= wmax w r /\
      k (pos + String.length prefix) rest = true /\
      (anchored r = true -> rest = "" \/ rest = String "010" "").
Proof.
  induction r as [| | | c | p | r1 IH1 r2 IH2 | r1 IH1 r2 IH2 | r1 IH1];
    intros pos s k H; simpl in H.
  - apply andb_true_iff in H as [_ H].
    exists "", s. rewrite Nat.add_0_r. simpl. repeat split; try lia; try done.
  - destruct s as [| c [| c' s']]; try discriminate.
    + exists "", "". rewrite Nat.add_0_r. simpl.
      repeat split; try lia; try done. by left.
    + apply andb_true_iff in H as [Hc H]. apply Ascii.eqb_eq in Hc. subst c.
      exists "", (String "010" ""). rewrite Nat.add_0_r. simpl.
      repeat split; try lia; try done. by right.
  - exists "", s. rewrite Nat.add_0_r. simpl. repeat split; try lia; try done.
  - destruct s as [| d s']; [discriminate |].
    apply andb_true_iff in H as [Hc H]. apply Ascii.eqb_eq in Hc. subst d.
    exists (String c ""), s'. simpl.
    replace (pos + 1) with (S pos) by lia.
    repeat split; try lia; try done.
  - destruct s as [| d s']; [discriminate |].
    apply andb_true_iff in H as [Hp H].
    exists (String d ""), s'. simpl.
    replace (pos + 1) with (S pos) by lia.
    pose proof (class_bounds p d Hp).
    repeat split; try lia; try done.
  - destruct (is_Eps r2) eqn:E2.
    + destruct r2; try discriminate E2. simpl in H.
      destruct (IH1 pos s (fun pos' s' => k pos' s') H)
        as (prefix & rest & -> & Hw & Hk & Ha).
      exists prefix, rest. simpl. repeat split; try lia; try done.
    + destruct (IH1 pos s _ H) as (p1 & rest1 & -> & Hw1 & H2 & _).
      destruct (IH2 _ _ _ H2) as (p2 & rest & -> & Hw2 & Hk & Ha).
      exists (p1 +:+ p2), rest.
      rewrite weight_append, length_append, Nat.add_assoc.
      simpl. rewrite E2.
      repeat split; try lia; try done.
      apply append_assoc.
  - apply orb_true_iff in H as [H | H].
    + destruct (IH1 _ _ _ H) as (prefix & rest & -> & Hw & Hk & _).
      exists prefix, rest. simpl. repeat split; try lia; try done.
    + destruct (IH2 _ _ _ H) as (prefix & rest & -> & Hw & Hk & _).
      exists prefix, rest. simpl. repeat split; try lia; try done.
  - apply orb_true_iff in H as [H | H].
    + destruct (IH1 _ _ _ H) as (prefix & rest & -> & Hw & Hk & _).
      exists prefix, rest. simpl. repeat split; try lia; try done.
    + exists "", s. rewrite Nat.add_0_r. simpl.
      repeat split; try lia; try done.
Qed.

(** The same for a whole subject accepted by an anchored pattern. *)
Lemma re_match_bounds r s :
  anchored r = true ->
  weight w (String "010" "") = 0 ->
  re_match r s = true ->
  wmin w r <= weight w s <= wmax w r.
Proof.
  intros Ha Hnl H. unfold re_match in H.
  destruct (accepts_bounds r 0 s _ H) as (prefix & rest & -> & Hw & _ & Hr).
  rewrite weight_append.
  destruct (Hr Ha) as [-> | ->]; [simpl | rewrite Hnl]; lia.
Qed.

End MeasureLemmas.

Lemma check_phone_re_match phone :
  check_phone phone = true -> re_match REGEX_PHONE phone = true.
Proof. unfold check_phone. by destruct (re_match REGEX_PHONE phone). Qed.


Lemma weight_not_phone_char s :
  weight not_phone_char s = 0%nat ->
  forall c, In c (chars s) -> phone_char c = true.
Proof.
  induction s as [| d s IH]; simpl; [intros _ c [] |].
  intros Hw c [<- | Hin].
  - unfold not_phone_char in Hw. destruct (phone_char d); [reflexivity | lia].
  - apply IH; [lia | exact Hin].
Qed.



(** X2.  Every character of a phone that [check_phone] accepts is a digit,
    a white-space character, or one of + ( ) -; so no letter, and none of
    the characters that structure a URL query, can pass the check. *)
Theorem check_phone_alphabet phone :
  check_phone phone = true ->
  forall c, In c (chars phone) -> phone_char c = true.
Proof.
  intros H. apply check_phone_re_match in H.
  apply weight_not_phone_char.
  pose proof (re_match_bounds not_phone_char REGEX_PHONE phone
                eq_refl eq_refl H) as Hw.
  change (wmax not_phone_char REGEX_PHONE) with 0%nat in Hw. lia.
Qed.

Lemma check_phone_alphabet_witness :
  check_phone "8(909)123-45-67" = true /\
  forall c, In c (chars "8(909)123-45-67") -> phone_char c = true.
Proof.
  split; [reflexivity |].
  apply (check_phone_alphabet "8(909)123-45-67"). reflexivity.
Defined.

(** X3.  A phone that [check_phone] accepts holds exactly 10 or exactly 11
    digits. *)
Theorem check_phone_digits phone :
  check_phone phone = true ->
  digits phone = 10%nat \/ digits phone = 11%nat.
Proof.
  intros H. apply check_phone_re_match in H.
  pose proof (re_match_bounds is_digit REGEX_PHONE phone eq_refl eq_refl H)
    as Hw.
  change (wmin is_digit REGEX_PHONE) with 10%nat in Hw.
  change (wmax is_digit REGEX_PHONE) with 11%nat in Hw.
  unfold digits. lia.
Qed.

Lemma check_phone_digits_witness :
  check_phone "9999999999" = true /\
  (digits "9999999999" = 10%nat \/ digits "9999999999" = 11%nat).
Proof.
  split; [reflexivity |].
  apply (check_phone_digits "9999999999"). reflexivity.
Defined.

(** ** What change_phone does to its argument *)

(** X4.  [change_phone] raises exactly on the empty string and on the lone
    plus sign, and then it raises [IndexError]; on every other string it
    returns. *)
Theorem change_phone_raises_iff phone :
  (exists e, change_phone phone = Raise e) <-> phone = "" \/ phone = "+".
Proof.
  split.
  - intros [e H]. destruct phone as [| c0 rest]; [by left |].
    unfold change_phone in H; simpl in H.
    destruct (Ascii.eqb c0 "+") eqn:Ep; simpl in H.
    + apply Ascii.eqb_eq in Ep. subst c0.
      destruct rest as [| c1 rest']; [by right |]. simpl in H.
      destruct (Ascii.eqb c1 "7"); discriminate H.
    + destruct (Ascii.eqb c0 "7"); [discriminate H |].
      destruct (Ascii.eqb c0 "8"); discriminate H.
  - intros [-> | ->]; eexists; reflexivity.
Qed.

Lemma change_phone_raises_iff_witness :
  (exists e, change_phone "+" = Raise e) /\
  change_phone "+" = Raise (IndexError "string index out of range") /\
  change_phone "" = Raise (IndexError "string index out of range").
Proof.
  split; [| split; reflexivity].
  apply (change_phone_raises_iff "+"). by right.
Defined.

(** X5.  Whenever [change_phone] returns, its result is the argument without
    its first character, with a 7 put in front unless the argument began
    with +7: the first character is dropped or overwritten, never kept
    beside a new prefix, so the result is as long as the argument, or one
    shorter for +7. *)
Theorem change_phone_shape phone r :
  change_phone phone = Return r ->
  exists c rest,
    phone = String c rest /\
    ((c = "+"%char /\ (exists rest', rest = String "7" rest') /\ r = rest /\
      S (String.length r) = String.length phone)
     \/ ((c <> "+"%char \/ forall rest', rest <> String "7" rest') /\
         r = String "7" rest /\
         String.length r = String.length phone)).
Proof.
  intros H. destruct phone as [| c0 rest]; [discriminate H |].
  exists c0, rest. split; [reflexivity |].
  unfold change_phone in H; simpl in H.
  destruct (Ascii.eqb c0 "+") eqn:Ep; simpl in H.
  - apply Ascii.eqb_eq in Ep. subst c0.
    destruct rest as [| c1 rest']; [discriminate H |]. simpl in H.
    destruct (Ascii.eqb c1 "7") eqn:E7.
    + apply Ascii.eqb_eq in E7. subst c1. injection H as <-.
      left. repeat split. by exists rest'.
    + injection H as <-. right. repeat split. right.
      intros rest'' Heq. injection Heq as -> _. discriminate E7.
  - assert (c0 <> "+"%char) as Hne.
    { intros ->. discriminate Ep. }
    destruct (Ascii.eqb c0 "7") eqn:E7.
    + apply Ascii.eqb_eq in E7. subst c0. injection H as <-.
      right. repeat split. by left.
    + destruct (Ascii.eqb c0 "8"); injection H as <-;
        right; repeat split; by left.
Qed.

Lemma change_phone_shape_witness :
  change_phone "9091234567" = Return "7091234567" /\
  exists c rest,
    "9091234567" = String c rest /\
    ((c = "+"%char /\ (exists rest', rest = String "7" rest') /\
      "7091234567" = rest /\
      S (String.length "7091234567") = String.length "9091234567")
     \/ ((c <> "+"%char \/ forall rest', rest <> String "7" rest') /\
         "7091234567" = String "7" rest /\
         String.length "7091234567" = String.length "9091234567")).
Proof.
  split; [reflexivity |].
  apply (change_phone_shape "9091234567" "7091234567"). reflexivity.
Defined.

Lemma REGEX_PHONE_parts :
  REGEX_PHONE = Cat Bol (Cat (Opt country_group) after_country).
Proof. reflexivity. Qed.

Lemma digits_after_first_digit pos s :
  accepts after_first_digit pos s (fun _ _ => true) = true ->
  digits s = 9%nat.
Proof.
  intros H.
  destruct (accepts_bounds is_digit after_first_digit pos s _ H)
    as (prefix & rest & -> & Hw & _ & Hr).
  change (wmin is_digit after_first_digit) with 9%nat in Hw.
  change (wmax is_digit after_first_digit) with 9%nat in Hw.
  unfold digits. rewrite weight_append.
  destruct (Hr eq_refl) as [-> | ->]; simpl; lia.
Qed.

Lemma digits_after_country pos s :
  accepts after_country pos s (fun _ _ => true) = true ->
  digits s = 10%nat.
Proof.
  intros H.
  destruct (accepts_bounds is_digit after_country pos s _ H)
    as (prefix & rest & -> & Hw & _ & Hr).
  change (wmin is_digit after_country) with 10%nat in Hw.
  change (wmax is_digit after_country) with 10%nat in Hw.
  unfold digits. rewrite weight_append.
  destruct (Hr eq_refl) as [-> | ->]; simpl; lia.
Qed.

(** X6.  An accepted phone that begins with 4 or 9 is a bare ten-digit
    number, and [change_phone] overwrites its first digit with 7 instead of
    putting 7 in front: the result still has ten digits, and the first
    digit of the number is lost. *)
Theorem bare_number_loses_first_digit c rest :
  c = "4"%char \/ c = "9"%char ->
  check_phone (String c rest) = true ->
  change_phone (String c rest) = Return (String "7" rest) /\
  digits (String c rest) = 10%nat /\
  digits (String "7" rest) = 10%nat.
Proof.
  intros Hc H. apply check_phone_re_match in H. unfold re_match in H.
  rewrite REGEX_PHONE_parts in H. unfold after_country in H.
  assert (accepts after_first_digit 1 rest (fun _ _ => true) = true) as Ht.
  { remember after_first_digit as T.
    destruct Hc as [-> | ->]; simpl in H; exact H. }
  apply digits_after_first_digit in Ht.
  unfold digits in *.
  destruct Hc as [-> | ->]; repeat split; simpl; by rewrite Ht.
Qed.

Lemma bare_number_loses_first_digit_witness :
  ("9"%char = "4"%char \/ "9"%char = "9"%char) /\
  check_phone "9999999999" = true /\
  change_phone "9999999999" = Return "7999999999" /\
  digits "9999999999" = 10%nat /\
  digits "7999999999" = 10%nat.
Proof.
  split; [by right |]. split; [reflexivity |].
  apply (bare_number_loses_first_digit "9" "999999999");
    [by right | reflexivity].
Defined.

(** X7.  An accepted phone that begins with 7 is returned unchanged by
    [change_phone] and holds eleven digits; an accepted phone that begins
    with + begins with +7, and [change_phone] returns it without the plus
    sign, again eleven digits that start with 7. *)
Theorem international_number_normalised rest :
  (check_phone (String "7" rest) = true ->
   change_phone (String "7" rest) = Return (String "7" rest) /\
   digits (String "7" rest) = 11%nat)
  /\ (check_phone (String "+" rest) = true ->
      exists rest',
        rest = String "7" rest' /\
        change_phone (String "+" rest) = Return rest /\
        digits rest = 11%nat).
Proof.
  split; intros H; apply check_phone_re_match in H; unfold re_match in H;
    rewrite REGEX_PHONE_parts in H.
  - split; [reflexivity |].
    assert (accepts after_country 1 rest (fun _ _ => true) = true) as Ht.
    { unfold after_country in H |- *.
      remember (Cat (Opt (Class sep))
                  (Cat (Opt (Lit "(")) (Cat (Class d489) after_first_digit)))
        as T.
      remember after_first_digit as U.
      simpl in H.
      assert (accepts T 0 (String "7" rest) (fun _ _ => true) = false)
        as Hskip by (subst T; reflexivity).
      rewrite Hskip, !orb_false_r in H. exact H. }
    apply digits_after_country in Ht. unfold digits in *. simpl.
    by rewrite Ht.
  - destruct rest as [| c1 rest'].
    { remember after_first_digit as U. simpl in H. discriminate H. }
    assert (c1 = "7"%char /\
            accepts after_country 2 rest' (fun _ _ => true) = true)
      as [-> Ht].
    { unfold after_country in H |- *.
      remember (Cat (Opt (Class sep))
                  (Cat (Opt (Lit "(")) (Cat (Class d489) after_first_digit)))
        as T.
      remember after_first_digit as U.
      simpl in H.
      assert (accepts T 0 (String "+" (String c1 rest'))
                (fun _ _ => true) = false)
        as Hskip by (subst T; reflexivity).
      rewrite Hskip, !orb_false_r in H.
      apply andb_true_iff in H as [Hc H].
      split; [| exact H].
      destruct c1 as [[] [] [] [] [] [] [] []];
        try discriminate Hc; reflexivity. }
    exists rest'. split; [reflexivity |]. split; [reflexivity |].
    apply digits_after_country in Ht. unfold digits in *. simpl.
    by rewrite Ht.
Qed.

Lemma international_number_normalised_witness :
  check_phone "+79091234567" = true /\
  exists rest',
    "79091234567" = String "7" rest' /\
    change_phone "+79091234567" = Return "79091234567" /\
    digits "79091234567" = 11%nat.
Proof.
  split; [reflexivity |].
  apply (international_number_normalised "79091234567"). reflexivity.
Defined.

(** ** The checks of init_call, as a whole *)



(** X9.  The checks of [init_call] run in the order phone, code, client,
    unique, and the first that fails decides the error: a phone that does
    not match raises the phone error whatever the code is (even a code that
    has no length); with phone and code in order, a client that is too long
    raises the client error whatever the unique identifier is, and a unique
    identifier that is too long is reported only when the client is not. *)
Theorem checks_report_first_failure self phone (code : string) client unique :
  (check_phone phone = false ->
   forall code' : value,
     init_call_checks self phone code' client unique =
     Raise (ParamSetException (class_name self) "init_repeat" MsgPhoneFormat))
  /\ (check_phone phone = true -> String.length code = 4%nat ->
      too_long client = true ->
      init_call_checks self phone (VStr code) client unique =
      Raise (ParamSetException (class_name self) "init_repeat" MsgClientLength))
  /\ (check_phone phone = true -> String.length code = 4%nat ->
      too_long client = false -> too_long unique = true ->
      init_call_checks self phone (VStr code) client unique =
      Raise (ParamSetException (class_name self) "init_repeat" MsgUniqueLength)).
Proof.
  unfold init_call_checks, too_long. repeat split.
  - intros -> code'. reflexivity.
  - intros -> Hlen Hc. simpl. rewrite Hlen. simpl.
    destruct client as [c |]; [| discriminate]. by rewrite Hc.
  - intros -> Hlen Hc Hu. simpl. rewrite Hlen. simpl.
    destruct client as [c |]; [rewrite Hc |]; simpl;
      (destruct unique as [u |]; [| discriminate]); by rewrite Hu.
Qed.

Lemma checks_report_first_failure_witness :
  init_call_checks (test_api unreachable) "abc" (VInt 1234) (Some long_id)
    (Some long_id) =
  Raise (ParamSetException "APIUCaller" "init_repeat" MsgPhoneFormat)
  /\ init_call_checks (test_api unreachable) "89091234567" (VStr "1234")
       (Some long_id) (Some long_id) =
     Raise (ParamSetException "APIUCaller" "init_repeat" MsgClientLength)
  /\ init_call_checks (test_api unreachable) "89091234567" (VStr "1234")
       None (Some long_id) =
     Raise (ParamSetException "APIUCaller" "init_repeat" MsgUniqueLength).
Proof.
  split; [| split].
  - apply (checks_report_first_failure (test_api unreachable) "abc" "1234"
             (Some long_id) (Some long_id)). reflexivity.
  - apply (checks_report_first_failure (test_api unreachable) "89091234567"
             "1234" (Some long_id) (Some long_id)); reflexivity.
  - apply (checks_report_first_failure (test_api unreachable) "89091234567"
             "1234" None (Some long_id)); reflexivity.
Defined.

(** ** One request per call *)

(** X10.  Every operation hands at most one request to the session, with the
    timeout it was given, and it never returns a result without having sent
    that request. *)
Theorem at_most_one_request self op timeout :
  (snd (call self op timeout) = [] \/
   exists url, snd (call self op timeout) = [HttpGet url timeout])
  /\ (forall j, fst (call self op timeout) = Return j ->
      exists url, snd (call self op timeout) = [HttpGet url timeout]).
Proof.
  destruct (call_spec self op timeout)
    as [(e & ->) | (s & url & method & msg & _ & ->)]; simpl.
  - split; [by left | discriminate].
  - split; [right |]; eauto.
Qed.

(** X11.  An error of the transport step that is not a [requests]
    exception, whether raised by [session.get] or by [Response.json], is not
    wrapped: the call raises that very error. *)
Theorem other_errors_propagate self op timeout s url e :
  session self = Return (VSession s) ->
  snd (call self op timeout) = [HttpGet url timeout] ->
  get s url timeout = Raise e \/
  (exists resp, get s url timeout = Return resp /\ json_body resp = Raise e) ->
  is_RequestException e = false ->
  call self op timeout = (Raise e, [HttpGet url timeout]).
Proof.
  intros Hs Htrace Hget He.
  destruct (call_sent self op timeout s url Hs Htrace)
    as (method & msg & ->).
  destruct Hget as [-> | (resp & -> & Hj)]; simpl; [| rewrite Hj; simpl];
    by rewrite He.
Qed.

Lemma other_errors_propagate_witness :
  call (with_urls (test_api disconnected)) GetService 60 =
  (Raise (OtherError "ConnectionError" "Connection error"),
   [HttpGet
      "https://api.ucaller.ru/v1.0/getService?service_id=123&key=32_characters_long_test_key_1234"
      60]).
Proof.
  apply (other_errors_propagate (with_urls (test_api disconnected))
           GetService 60 disconnected
           "https://api.ucaller.ru/v1.0/getService?service_id=123&key=32_characters_long_test_key_1234"
           (OtherError "ConnectionError" "Connection error"));
    [reflexivity | reflexivity | left; reflexivity | reflexivity].
Defined.

(** X12.  When the session answers but [Response.json] raises a [requests]
    exception, the call raises [GetException] carrying it, exactly as for an
    error of [session.get]. *)
Theorem decode_error_wrapped self op timeout s url resp e :
  session self = Return (VSession s) ->
  snd (call self op timeout) = [HttpGet url timeout] ->
  get s url timeout = Return resp ->
  json_body resp = Raise e ->
  is_RequestException e = true ->
  exists method msg,
    call self op timeout =
    (Raise (GetException (class_name self) method msg e),
     [HttpGet url timeout]).
Proof.
  intros Hs Htrace Hget Hj He.
  destruct (call_sent self op timeout s url Hs Htrace)
    as (method & msg & ->).
  exists method, msg. rewrite Hget. simpl. rewrite Hj. simpl. by rewrite He.
Qed.

Lemma decode_error_wrapped_witness :
  exists method msg,
    call (with_urls (test_api garbled)) GetBalance 60 =
    (Raise (GetException "APIUCaller" method msg
              (RequestException "JSONDecodeError" "Expecting value")),
     [HttpGet
        "https://api.ucaller.ru/v1.0/getBalance?service_id=123&key=32_characters_long_test_key_1234"
        60]).
Proof.
  apply (decode_error_wrapped (with_urls (test_api garbled)) GetBalance 60
           garbled
           "https://api.ucaller.ru/v1.0/getBalance?service_id=123&key=32_characters_long_test_key_1234"
           {| json_body :=
                Raise (RequestException "JSONDecodeError" "Expecting value") |}
           (RequestException "JSONDecodeError" "Expecting value"));
    reflexivity.
Defined.

(** ** The request and the error of each operation *)

Lemma append_empty_r s : s +:+ "" = s.
Proof.
  induction s as [| c s IH]; [reflexivity |].
  change (String c (s +:+ "") = String c s). by rewrite IH.
Qed.

Lemma request_body_sent self endpoint_ mk timeout s head :
  session self = Return (VSession s) ->
  url_head self endpoint_ = Return head ->
  request_body self endpoint_ mk timeout =
  (obind (get s (mk head) timeout) json_body, [HttpGet (mk head) timeout]).
Proof.
  intros Hs Hh. unfold request_body. rewrite Hs. simpl. rewrite Hh. simpl.
  destruct (get s (mk head) timeout) as [resp |]; simpl; [| reflexivity].
  destruct (json_body resp); reflexivity.
Qed.

Lemma try_request_body_sent self endpoint_ mk timeout s head qualname method
    msg :
  session self = Return (VSession s) ->
  url_head self endpoint_ = Return head ->
  try_except_RequestException (request_body self endpoint_ mk timeout)
    (fun err => raise (GetException qualname method msg err))
  = (reraised qualname method msg
       (obind (get s (mk head) timeout) json_body),
     [HttpGet (mk head) timeout]).
Proof.
  intros Hs Hh. rewrite (request_body_sent _ _ _ _ _ _ Hs Hh).
  unfold try_except_RequestException, reraised.
  destruct (obind (get s (mk head) timeout) json_body) as [j | err];
    [reflexivity |].
  destruct (is_RequestException err); reflexivity.
Qed.

(** With a session and a URL head at hand, a call whose arguments pass the
    checks sends the request of its operation and ends as its [except]
    clause decides. *)
Lemma call_exact self op timeout s head :
  session self = Return (VSession s) ->
  url_head self (endpoint op) = Return head ->
  validated self op ->
  call self op timeout =
  (reraised (class_name self) (handler_method op) (handler_message op)
     (obind (get s (head +:+ query op) timeout) json_body),
   [HttpGet (head +:+ query op) timeout]).
Proof.
  intros Hs Hh Hv.
  destruct op as [phone code client unique | uid | uid | |]; simpl in *.
  - unfold init_call. rewrite Hv. simpl.
    destruct (change_phone_defined phone) as [p Hp];
      [eapply checks_phone; eauto |].
    rewrite Hp. simpl.
    match goal with
    | |- context [try_except_RequestException ?b ?h] =>
        change b with
          (request_body self "initCall"
             (fun head =>
                head +:+ "&phone=" +:+ p +:+ "&code=" +:+ format code
                +:+ optional_param "client" client
                +:+ optional_param "unique" unique) timeout)
    end.
    by rewrite (try_request_body_sent _ _ _ _ _ _ _ _ _ Hs Hh).
  - apply (try_request_body_sent self "initRepeat"
             (fun head => head +:+ "&uid=" +:+ uid)); assumption.
  - apply (try_request_body_sent self "getInfo"
             (fun head => head +:+ "&uid=" +:+ uid)); assumption.
  - rewrite append_empty_r.
    apply (try_request_body_sent self "getBalance" (fun head => head));
      assumption.
  - rewrite append_empty_r.
    apply (try_request_body_sent self "getService" (fun head => head));
      assumption.
Qed.

(** X13.  When the transport step of an operation raises a [requests]
    exception, the [GetException] raised names [init_call] as the failing
    method only for [init_call]; for [init_repeat], [get_info],
    [get_balance] and [get_service] alike it names [init_repeat], and
    [get_service] reports the message of [get_balance]. *)
Theorem GetException_names_init_repeat self op timeout s head err :
  session self = Return (VSession s) ->
  url_head self (endpoint op) = Return head ->
  validated self op ->
  get s (head +:+ query op) timeout = Raise err ->
  is_RequestException err = true ->
  fst (call self op timeout) =
  Raise (GetException (class_name self) (handler_method op)
           (handler_message op) err)
  /\ (handler_method op = "init_call" <->
      exists phone code client unique, op = InitCall phone code client unique)
  /\ handler_message GetService = handler_message GetBalance.
Proof.
  intros Hs Hh Hv Hget Herr.
  rewrite (call_exact self op timeout s head Hs Hh Hv), Hget. simpl.
  rewrite Herr. split; [reflexivity |]. split; [| reflexivity].
  destruct op; simpl; split; intros H; try discriminate H; eauto;
    destruct H as (? & ? & ? & ? & H); discriminate H.
Qed.

Lemma GetException_names_init_repeat_witness :
  fst (call (with_urls (test_api unreachable)) (GetInfo "103000") 60) =
  Raise (GetException "APIUCaller" "init_repeat" MsgGetInfoFailed
           (RequestException "ConnectionError" "Connection error")).
Proof.
  apply (GetException_names_init_repeat (with_urls (test_api unreachable))
           (GetInfo "103000") 60 unreachable
           "https://api.ucaller.ru/v1.0/getInfo?service_id=123&key=32_characters_long_test_key_1234"
           (RequestException "ConnectionError" "Connection error"));
    reflexivity.
Defined.

(** X14.  On an object that has the two attributes which the operations
    read, together with an integer service id, a string key and a session, a
    call whose arguments pass the checks sends exactly one request, to the
    base URL followed by the version, a slash, the endpoint,
    [?service_id=] and the decimal id, [&key=] and the key, and then the
    parameters of the operation, all inserted as they are, without any
    escaping. *)
Theorem request_url self op timeout base version sid key_ s :
  getattr self "_APIUCaller__base_url" = Return (VStr base) ->
  getattr self "_APIUCaller__version_api" = Return (VStr version) ->
  service_id self = Return (VInt sid) ->
  key self = Return (VStr key_) ->
  session self = Return (VSession s) ->
  validated self op ->
  snd (call self op timeout) =
  [HttpGet
     ((base +:+ version +:+ "/" +:+ endpoint op +:+ "?service_id="
       +:+ NilZero.string_of_int (Z.to_int sid) +:+ "&key=" +:+ key_)
      +:+ query op)
     timeout].
Proof.
  intros Hb Hver Hsid Hkey Hs Hv.
  rewrite (call_exact self op timeout s
             (base +:+ version +:+ "/" +:+ endpoint op +:+ "?service_id="
              +:+ NilZero.string_of_int (Z.to_int sid) +:+ "&key=" +:+ key_)
             Hs); [reflexivity | | exact Hv].
  unfold url_head. rewrite Hb, Hver, Hsid, Hkey. reflexivity.
Qed.

Lemma request_url_witness :
  snd (call (with_urls (test_api (answering balance_ok)))
         (InitCall "+7 (909) 123-45-67" (VStr "1234") (Some "nick&x=1") None)
         60) =
  [HttpGet
     "https://api.ucaller.ru/v1.0/initCall?service_id=123&key=32_characters_long_test_key_1234&phone=7 (909) 123-45-67&code=1234&client=nick&x=1"
     60].
Proof.
  apply (request_url (with_urls (test_api (answering balance_ok)))
           (InitCall "+7 (909) 123-45-67" (VStr "1234") (Some "nick&x=1")
              None)
           60 "https://api.ucaller.ru/" "v1.0" 123 test_key
           (answering balance_ok));
    reflexivity.
Defined.

(** ** The property setters *)

Lemma getattr_frame self self' name :
  class_name self' = class_name self ->
  dict self' !! name = dict self !! name ->
  getattr self' name = getattr self name.
Proof. intros Hc Hd. unfold getattr. by rewrite Hc, Hd. Qed.

(** X15.  Assigning to [service_id] the id that the client already has is
    refused (by the [AttributeError] of [self.service_id.__name__], raised
    while the arguments of [SetServiceId] are evaluated); assigning any
    other id stores it and leaves key and session as they were. *)
Theorem set_service_id_spec self sid :
  service_id self = Return (VInt sid) ->
  set_service_id self sid =
  Raise (AttributeError "'int' object has no attribute '__name__'")
  /\ forall sid',
      sid' <> sid ->
      exists self',
        set_service_id self sid' = Return self' /\
        service_id self' = Return (VInt sid') /\
        key self' = key self /\
        session self' = session self.
Proof.
  intros Hsid. unfold set_service_id. unfold service_id in Hsid.
  unfold service_id at 1. rewrite Hsid. simpl. rewrite Z.eqb_refl.
  split; [reflexivity |].
  intros sid' Hne. apply Z.eqb_neq in Hne. rewrite Hne.
  eexists. split; [reflexivity |].
  unfold service_id, key, session.
  rewrite getattr_setattr_eq.
  repeat split; apply getattr_frame; try reflexivity;
    unfold setattr; simpl; by rewrite lookup_insert_ne.
Qed.

Lemma set_service_id_spec_witness :
  set_service_id (test_api unreachable) 123 =
  Raise (AttributeError "'int' object has no attribute '__name__'")
  /\ forall sid',
      sid' <> 123 ->
      exists self',
        set_service_id (test_api unreachable) sid' = Return self' /\
        service_id self' = Return (VInt sid') /\
        key self' = key (test_api unreachable) /\
        session self' = session (test_api unreachable).
Proof.
  apply (set_service_id_spec (test_api unreachable) 123). reflexivity.
Defined.

(** X16.  A successful assignment to [key], [session] or [service_id]
    changes that one attribute of the object and nothing else: every other
    attribute, and the class, stay as they were. *)
Theorem setters_change_one_attribute self self' :
  (forall key_,
      set_key self key_ = Return self' ->
      class_name self' = class_name self /\
      forall name, name <> "_BaseUCaller__key" ->
                   dict self' !! name = dict self !! name)
  /\ (forall sess,
        set_session self sess = Return self' ->
        class_name self' = class_name self /\
        forall name, name <> "_BaseUCaller__session" ->
                     dict self' !! name = dict self !! name)
  /\ (forall sid,
        set_service_id self sid = Return self' ->
        class_name self' = class_name self /\
        forall name, name <> "_BaseUCaller__service_id" ->
                     dict self' !! name = dict self !! name).
Proof.
  repeat split.
  - unfold set_key in H.
    destruct (32 <? String.length key_)%nat;
      [destruct (service_id self); discriminate H |].
    by injection H as <-.
  - intros name Hne. unfold set_key in H.
    destruct (32 <? String.length key_)%nat;
      [destruct (service_id self); discriminate H |].
    injection H as <-. simpl. by rewrite lookup_insert_ne.
  - destruct sess as [s |]; simpl in H;
      [| destruct (session self); discriminate H].
    by injection H as <-.
  - intros name Hne. destruct sess as [s |]; simpl in H;
      [| destruct (session self); discriminate H].
    injection H as <-. simpl. by rewrite lookup_insert_ne.
  - unfold set_service_id in H.
    destruct (getattr self "_BaseUCaller__service_id") as [current |];
      simpl in H; [| discriminate H].
    destruct (int_eq sid current);
      [destruct (service_id self); discriminate H |].
    by injection H as <-.
  - intros name Hne. unfold set_service_id in H.
    destruct (getattr self "_BaseUCaller__service_id") as [current |];
      simpl in H; [| discriminate H].
    destruct (int_eq sid current);
      [destruct (service_id self); discriminate H |].
    injection H as <-. simpl. by rewrite lookup_insert_ne.
Qed.

Lemma setters_change_one_attribute_witness :
  set_key (test_api unreachable) "" =
  Return (setattr (test_api unreachable) "_BaseUCaller__key" (VStr ""))
  /\ session (setattr (test_api unreachable) "_BaseUCaller__key" (VStr "")) =
     session (test_api unreachable).
Proof.
  split; [reflexivity |].
  destruct (setters_change_one_attribute (test_api unreachable)
              (setattr (test_api unreachable) "_BaseUCaller__key" (VStr "")))
    as (Hk & _ & _).
  destruct (Hk "" eq_refl) as [Hc Hd].
  apply getattr_frame; [exact Hc | apply Hd; discriminate].
Defined.

(** ** regex_phone and the class constants *)

Lemma call_frame self self' op timeout :
  class_name self' = class_name self ->
  (forall name, name <> "_BaseUCaller__REGEX_PHONE" ->
                dict self' !! name = dict self !! name) ->
  call self' op timeout = call self op timeout.
Proof.
  intros Hc Hd.
  assert (session self' = session self) as Hs
    by (apply getattr_frame; [exact Hc | by apply Hd]).
  assert (forall e, url_head self' e = url_head self e) as Hu.
  { intros e. unfold url_head, service_id, key.
    rewrite !(getattr_frame self self') by (try exact Hc; by apply Hd).
    reflexivity. }
  destruct op as [phone code client unique | uid | uid | |]; simpl.
  - unfold init_call, init_call_checks. by rewrite Hs, Hu, Hc.
  - unfold init_repeat. by rewrite Hs, Hu, Hc.
  - unfold get_info. by rewrite Hs, Hu, Hc.
  - unfold get_balance. by rewrite Hs, Hu, Hc.
  - unfold get_service. by rewrite Hs, Hu, Hc.
Qed.

(** X17.  Assigning [regex_phone] changes what the [regex_phone] getter
    returns and nothing else: [check_phone] is a class method that reads the
    pattern of the class, so every operation, the phone check of
    [init_call] included, behaves after the assignment exactly as
    before. *)
Theorem regex_phone_setter_changes_no_check self regex_ :
  regex_phone (set_regex_phone self regex_) = Return (VStr regex_)
  /\ (forall phone code client unique,
        init_call_checks (set_regex_phone self regex_) phone code client unique
        = init_call_checks self phone code client unique)
  /\ (forall op timeout,
        call (set_regex_phone self regex_) op timeout = call self op timeout).
Proof.
  repeat split.
  - unfold regex_phone, getattr_or_class, set_regex_phone, setattr; simpl.
    by rewrite lookup_insert_eq.
  - intros op timeout. apply call_frame; [reflexivity |].
    intros name Hne. unfold set_regex_phone, setattr; simpl.
    by rewrite lookup_insert_ne.
Qed.

Lemma configured_class_constants rs self :
  configured rs self ->
  dict self !! "_BaseUCaller__DOC_URL" = None /\
  dict self !! "_BaseUCaller__ORG_URL" = None.
Proof.
  induction 1 as [cls sid key_ sess self Hinit
                 | self key_ self' _ IH Hset
                 | self sess self' _ IH Hset
                 | self sid self' _ IH Hset
                 | self regex_ _ IH].
  - rewrite init_spec in Hinit.
    destruct (32 <? String.length key_)%nat; [discriminate |].
    injection Hinit as <-.
    unfold initialised, setattr, new; simpl. split; by simplify_map_eq.
  - destruct (setters_change_one_attribute self self') as (Hk & _ & _).
    destruct (Hk key_ Hset) as [_ Hd]. rewrite !Hd by discriminate. exact IH.
  - destruct (setters_change_one_attribute self self') as (_ & Hs & _).
    destruct (Hs sess Hset) as [_ Hd]. rewrite !Hd by discriminate. exact IH.
  - destruct (setters_change_one_attribute self self') as (_ & _ & Hi).
    destruct (Hi sid Hset) as [_ Hd]. rewrite !Hd by discriminate. exact IH.
  - unfold set_regex_phone, setattr; simpl.
    rewrite !lookup_insert_ne by discriminate. exact IH.
Qed.

(** X18.  On every client that the constructor and the four property
    setters can produce, [__doc_uCaller__] returns the documentation URL and
    [__service_url__] the site URL of the class: no assignment made through
    the interface can change them. *)
Theorem class_constants_kept rs self :
  configured rs self ->
  __doc_uCaller__ self = Return (VStr "https://ucaller.ru/doc") /\
  __service_url__ self = Return (VStr "https://ucaller.ru/").
Proof.
  intros Hc. destruct (configured_class_constants rs self Hc) as [Hd Ho].
  unfold __doc_uCaller__, __service_url__, getattr_or_class.
  rewrite Hd, Ho. split; reflexivity.
Qed.

Lemma class_constants_kept_witness :
  configured unreachable
    (set_regex_phone (test_api (answering balance_ok)) "^[0-9]+$")
  /\ __doc_uCaller__
       (set_regex_phone (test_api (answering balance_ok)) "^[0-9]+$") =
     Return (VStr "https://ucaller.ru/doc").
Proof.
  assert (configured unreachable
            (set_regex_phone (test_api (answering balance_ok)) "^[0-9]+$"))
    as Hc.
  { apply cfg_set_regex_phone.
    apply (cfg_init unreachable "APIUCaller" 123 test_key
             (Some (answering balance_ok))).
    reflexivity. }
  split; [exact Hc |].
  apply (class_constants_kept unreachable
           (set_regex_phone (test_api (answering balance_ok)) "^[0-9]+$")).
  exact Hc.
Defined.

(** ** The final newline *)

Lemma accepts_newline r :
  forall pos s k k',
    (forall c, In c (chars s) -> c <> "010"%char) ->
    (forall pos' s',
        (forall c, In c (chars s') -> c <> "010"%char) ->
        k pos' s' = true -> k' pos' (s' +:+ String "010" "") = true) ->
    accepts r pos s k = true ->
    accepts r pos (s +:+ String "010" "") k' = true.
Proof.
  induction r as [| | | c | p | r1 IH1 r2 IH2 | r1 IH1 r2 IH2 | r1 IH1];
    intros pos s k k' Hs Hk H; simpl in H.
  - apply andb_true_iff in H as [Hpos H]. simpl. rewrite Hpos. simpl.
    by apply Hk.
  - destruct s as [| c [| c' s']]; try discriminate.
    + apply (Hk pos "") in H; [| exact Hs]. simpl in *. exact H.
    + apply andb_true_iff in H as [Hc _]. apply Ascii.eqb_eq in Hc.
      exfalso. apply (Hs c); [by left | done].
  - simpl. by apply Hk.
  - destruct s as [| d s']; [discriminate |].
    apply andb_true_iff in H as [Hc H].
    change (Ascii.eqb c d && k' (S pos) (s' +:+ String "010" "") = true).
    rewrite Hc. simpl. apply Hk; [| exact H].
    intros c' Hin. apply Hs. by right.
  - destruct s as [| d s']; [discriminate |].
    apply andb_true_iff in H as [Hp H].
    change (p d && k' (S pos) (s' +:+ String "010" "") = true).
    rewrite Hp. simpl. apply Hk; [| exact H].
    intros c' Hin. apply Hs. by right.
  - simpl. eapply IH1; [exact Hs | | exact H].
    intros pos' s' Hs' H2. simpl in H2. eapply IH2; eauto.
  - apply orb_true_iff in H as [H | H]; simpl; apply orb_true_iff.
    + left. eapply IH1; eauto.
    + right. eapply IH2; eauto.
  - apply orb_true_iff in H as [H | H]; simpl; apply orb_true_iff.
    + left. eapply IH1; eauto.
    + right. by apply Hk.
Qed.

(** X19.  The check lets one final newline through: whenever [check_phone]
    accepts a phone that holds no newline, it also accepts that phone
    followed by a newline, because [$] matches just before a newline that
    ends the string. *)
Theorem check_phone_final_newline phone :
  (forall c, In c (chars phone) -> c <> "010"%char) ->
  check_phone phone = true ->
  check_phone (phone +:+ String "010" "") = true.
Proof.
  intros Hs H. apply check_phone_re_match in H.
  unfold check_phone, re_match in *.
  by rewrite (accepts_newline REGEX_PHONE 0 phone (fun _ _ => true)
                (fun _ _ => true) Hs (fun _ _ _ _ => eq_refl) H).
Qed.

Lemma check_phone_final_newline_witness :
  check_phone ("79091234567" +:+ String "010" "") = true.
Proof.
  apply (check_phone_final_newline "79091234567"); [| reflexivity].
  intros c Hin. simpl in Hin.
  repeat (destruct Hin as [<- | Hin]; [discriminate |]). destruct Hin.
Defined.

Lemma at_most_one_request_witness :
  fst (call (with_urls (test_api (answering balance_ok))) GetBalance 60) =
  Return balance_ok
  /\ exists url,
      snd (call (with_urls (test_api (answering balance_ok))) GetBalance 60) =
      [HttpGet url 60].
Proof.
  split; [reflexivity |].
  apply (at_most_one_request (with_urls (test_api (answering balance_ok)))
           GetBalance 60) with (j := balance_ok).
  reflexivity.
Defined.
